(** * m8s: short-lived environments on a cluster

    A shallow embedding of the m8s API server's start-up code (the older
    [main] of the [pr] API binary and the [server] sub-command of the
    [m8s] command line), of the [env.PersistentVolumeClaim] constructor,
    and of the environment lifecycle the design document describes. *)

From Stdlib Require Import ZArith Ascii DecimalString DecimalPos DecimalN DecimalZ.
From stdpp Require Import gmap strings list fin_maps.

Local Open Scope string_scope.
Local Open Scope Z_scope.

(** ** Go values *)

(** Go's [error] interface: [None] is [nil], [Some msg] an error whose
    [Error()] text is [msg]. *)
Definition error := option string.

(** [fmt.Sprintf("%d", n)] *)
Definition fmt_d (n : Z) : string := NilZero.string_of_int (Z.to_int n).

(** Handles handed out by the libraries the program links with. *)
Record Listener := mkListener { listener_fd : nat }.
Record RestConfig := mkRestConfig { rest_host : string }.
Record Clientset := mkClientset { clientset_config : RestConfig }.
Record M8sServer := mkM8sServer { m8s_server_id : nat }.

(** [autocert.Manager], with the four fields the program sets. *)
Inductive autocert_Prompt := autocert_AcceptTOS.
Inductive autocert_CacheT := autocert_DirCache (dir : string).
Inductive autocert_HostPolicyT := autocert_HostWhitelist (hosts : list string).

Record autocert_Manager := {
  Prompt : autocert_Prompt;
  Cache : autocert_CacheT;
  HostPolicy : autocert_HostPolicyT;
  Email : string
}.

(** The method value [manager.GetCertificate]. *)
Inductive CertificateGetter := Manager_GetCertificate (m : autocert_Manager).

(** [tls.Config]; only [GetCertificate] is ever set. *)
Record tls_Config := { GetCertificate : option CertificateGetter }.

(** Values behind the [credentials.TransportCredentials] interface; the
    interface variable itself is an [option], [None] being [nil]. *)
Inductive TransportCredentials :=
| ServerTLSFromFile (certFile keyFile : string)
| credentials_NewTLS (c : tls_Config).

(** [server.DockerRegistry] *)
Record DockerRegistry := {
  Registry : string;
  Username : string;
  Password : string;
  RegistryEmail : string;
  Auth : string
}.

(** The [server] struct literal of the older binary. *)
Record server := { client : Clientset; config : RestConfig }.

(** What is registered on the gRPC server. *)
Inductive Service :=
| PRServer (srv : server)
| M8SServer (srv : M8sServer).

(** [grpc.NewServer(grpc.Creds(creds))] followed by the registration. *)
Record GrpcServer := {
  grpc_Creds : option TransportCredentials;
  registered : Service
}.

(** ** The process and its surroundings *)

(** Every call that leaves the program, indexed by what Go gets back. *)
Inductive Call : Type -> Type :=
| log_Println (msg : string) : Call unit
| go_metrics (port path : string) : Call unit
| net_Listen (network address : string) : Call (Listener * error)
| rest_InClusterConfig : Call (RestConfig * error)
| NewForConfig (c : RestConfig) : Call (Clientset * error)
| addons_CreateTraefik (c : Clientset) (namespace image version : string)
    (port : Z) : Call error
| addons_CreateSSHServer (c : Clientset) (namespace image version : string)
    (port : Z) : Call error
| addons_CreateBlackDeath (c : Clientset) (namespace image version : string)
    : Call error
| server_New (c : Clientset) (cfg : RestConfig)
    (token namespace sshService fsSize : string) (apachePort : Z)
    (reg : DockerRegistry) : Call (M8sServer * error)
| credentials_NewServerTLSFromFile (certFile keyFile : string)
    : Call (option TransportCredentials * error)
| grpcServer_Serve (g : GrpcServer) (lis : Listener) : Call error.

(** A call together with what it returned. *)
Inductive Event : Type :=
| Ev (R : Type) (c : Call R) (r : R).
Arguments Ev {R} c r.

Definition Trace := list Event.

(** The surroundings answer each call, knowing everything that
    happened before it. *)
Definition World := ∀ R : Type, Trace → Call R → R.

Inductive Outcome (A : Type) :=
| Returned (a : A)
| Panicked (v : string).
Arguments Returned {A} a.
Arguments Panicked {A} v.

(** A Go procedure: it extends the trace and returns or panics. *)
Definition Proc (A : Type) : Type := World → Trace → Trace * Outcome A.

Definition ret {A} (a : A) : Proc A := λ _ t, (t, Returned a).

Definition bind {A B} (m : Proc A) (k : A → Proc B) : Proc B :=
  λ w t, match m w t with
         | (t', Returned a) => k a w t'
         | (t', Panicked v) => (t', Panicked v)
         end.

Definition call {R} (c : Call R) : Proc R :=
  λ w t, let r := w R t c in ((t ++ [Ev c r])%list, Returned r).

Definition panic {A} (v : string) : Proc A := λ _ t, (t, Panicked v).

#[global] Instance Proc_ret : MRet Proc := @ret.
#[global] Instance Proc_bind : MBind Proc := λ A B k m, bind m k.

(** [if err != nil { panic(err) }] *)
Definition panic_on (err : error) : Proc unit :=
  match err with
  | Some e => panic e
  | None => mret tt
  end.

(** Runs a procedure as the whole process, from an empty history. *)
Definition exec {A} (p : Proc A) (w : World) : Trace * Outcome A := p w [].

(** ** Observations on a trace *)

Inductive Addon := Traefik | SSHServer | BlackDeath.

#[global] Instance Addon_eq_dec : EqDecision Addon.
Proof. solve_decision. Defined.

(** The addon an event creates, with the error the creation returned. *)
Definition addon_result (e : Event) : option (Addon * error) :=
  match e with
  | Ev c r =>
      match c in Call R return R → option (Addon * error) with
      | addons_CreateTraefik _ _ _ _ _ => λ r, Some (Traefik, r)
      | addons_CreateSSHServer _ _ _ _ _ => λ r, Some (SSHServer, r)
      | addons_CreateBlackDeath _ _ _ _ => λ r, Some (BlackDeath, r)
      | _ => λ _, None
      end r
  end.

Definition addon_results (t : Trace) : list (Addon * error) :=
  omap addon_result t.

(** The gRPC server an event starts serving. *)
Definition served (e : Event) : option GrpcServer :=
  match e with
  | Ev c _ =>
      match c with
      | grpcServer_Serve g _ => Some g
      | _ => None
      end
  end.

Definition serving (t : Trace) : list GrpcServer := omap served t.

(** The certificate and key files an event loads, with the error the
    load returned. *)
Definition loaded_files (e : Event) : option (string * string * error) :=
  match e with
  | Ev c r =>
      match c in Call R return R → option (string * string * error) with
      | credentials_NewServerTLSFromFile cf kf => λ r, Some (cf, kf, r.2)
      | _ => λ _, None
      end r
  end.

Definition static_loads (t : Trace) : list (string * string * error) :=
  omap loaded_files t.

(** The error [server.New] returned, for an event that calls it. *)
Definition new_server_error (e : Event) : option error :=
  match e with
  | Ev c r =>
      match c in Call R return R → option error with
      | server_New _ _ _ _ _ _ _ _ => λ r, Some r.2
      | _ => λ _, None
      end r
  end.

Definition new_server_errors (t : Trace) : list error :=
  omap new_server_error t.

(** ** The [pr] API binary: [main] *)

Module PrApi.

(** The flags [kingpin.Parse] fills in. *)
Record Flags := {
  cliPort : Z;
  cliCert : string;
  cliKey : string;
  cliToken : string;
  cliNamespace : string;
  cliCacheSize : string;
  cliLetsEncryptEmail : string;
  cliLetsEncryptDomain : string;
  cliLetsEncryptCache : string;
  cliBlackDeathImage : string;
  cliBlackDeathVersion : string;
  cliTraefikImage : string;
  cliTraefikVersion : string;
  cliTraefikPort : Z;
  cliSSHImage : string;
  cliSSHVersion : string;
  cliSSHPort : Z
}.

(** Helper function for adding Lets Encrypt certificates. *)
Definition getLetsEncrypt (domain email cache : string)
  : option TransportCredentials * error :=
  let manager := {|
    Prompt := autocert_AcceptTOS;
    Cache := autocert_DirCache cache;
    HostPolicy := autocert_HostWhitelist [domain];
    Email := email
  |} in
  (Some (credentials_NewTLS
           {| GetCertificate := Some (Manager_GetCertificate manager) |}),
   None).

Definition main (f : Flags) : Proc unit :=
  call (log_Println "Starting");;
  '(listen, err) ← call (net_Listen "tcp" (":" +:+ fmt_d (cliPort f)));
  panic_on err;;
  (* Attempt to connect to the K8s API Server. *)
  '(config, err) ← call rest_InClusterConfig;
  panic_on err;;
  '(client, err) ← call (NewForConfig config);
  panic_on err;;
  call (log_Println "Installing addon: traefik");;
  err ← call (addons_CreateTraefik client (cliNamespace f)
                (cliTraefikImage f) (cliTraefikVersion f) (cliTraefikPort f));
  panic_on err;;
  call (log_Println "Installing addon: ssh-server");;
  err ← call (addons_CreateSSHServer client (cliNamespace f)
                (cliSSHImage f) (cliSSHVersion f) (cliSSHPort f));
  panic_on err;;
  call (log_Println "Installing addon: black-death");;
  err ← call (addons_CreateBlackDeath client (cliNamespace f)
                (cliBlackDeathImage f) (cliBlackDeathVersion f));
  panic_on err;;
  call (log_Println "Booting API");;
  (* Create a new server which adheres to the GRPC interface. *)
  let srv := {| client := client; config := config |} in
  (* Attempt to load user provided certificates.
     If no certificates are provided, fallback to Lets Encrypt. *)
  creds ←
    (if bool_decide (cliCert f ≠ "") && bool_decide (cliKey f ≠ "") then
       '(creds, err) ← call (credentials_NewServerTLSFromFile
                               (cliCert f) (cliKey f));
       panic_on err;;
       mret creds
     else
       let '(creds, err) := getLetsEncrypt (cliLetsEncryptDomain f)
                              (cliLetsEncryptEmail f) (cliLetsEncryptCache f) in
       panic_on err;;
       mret creds);
  let grpcServer := {| grpc_Creds := creds; registered := PRServer srv |} in
  call (grpcServer_Serve grpcServer listen);;
  mret tt.

End PrApi.

(** ** The [m8s] command line: the [server] sub-command *)

Module Cmd.

Record cmdServer := {
  Port : Z;
  TLSCert : string;
  TLSKey : string;
  Token : string;
  Namespace : string;
  FilesystemSize : string;
  LetsEncryptEmail : string;
  LetsEncryptDomain : string;
  LetsEncryptCache : string;
  SSHService : string;
  DockerCfgRegistry : string;
  DockerCfgUsername : string;
  DockerCfgPassword : string;
  DockerCfgEmail : string;
  DockerCfgAuth : string;
  PrometheusPort : string;
  PrometheusPath : string;
  PrometheusApache : Z
}.

(** Helper function for adding Lets Encrypt certificates. *)
Definition getLetsEncrypt (domain email cache : string)
  : option TransportCredentials * error :=
  let manager := {|
    Prompt := autocert_AcceptTOS;
    Cache := autocert_DirCache cache;
    HostPolicy := autocert_HostWhitelist [domain];
    Email := email
  |} in
  (Some (credentials_NewTLS
           {| GetCertificate := Some (Manager_GetCertificate manager) |}),
   None).

(** The body of [run]. The metrics goroutine is started and then
    lives its own life, so only its start shows in the trace. The
    helper is an argument, so that the error check that follows its
    call can be exercised with a helper that fails. *)
Definition run_using
    (getLetsEncrypt : string → string → string
                      → option TransportCredentials * error)
    (cmd : cmdServer) : Proc error :=
  call (log_Println "Starting Prometheus Endpoint");;
  call (go_metrics (PrometheusPort cmd) (PrometheusPath cmd));;
  call (log_Println "Starting Server");;
  '(listen, err) ← call (net_Listen "tcp" (":" +:+ fmt_d (Port cmd)));
  panic_on err;;
  '(config, err) ← call rest_InClusterConfig;
  panic_on err;;
  '(client, err) ← call (NewForConfig config);
  panic_on err;;
  call (log_Println "Booting API");;
  (* Create a new server which adheres to the GRPC interface. *)
  '(srv, err) ← call (server_New client config (Token cmd) (Namespace cmd)
                        (SSHService cmd) (FilesystemSize cmd)
                        (PrometheusApache cmd)
                        {| Registry := DockerCfgRegistry cmd;
                           Username := DockerCfgUsername cmd;
                           Password := DockerCfgPassword cmd;
                           RegistryEmail := DockerCfgEmail cmd;
                           Auth := DockerCfgAuth cmd |});
  panic_on err;;
  (* Attempt to load user provided certificates.
     If no certificates are provided, fallback to Lets Encrypt. *)
  creds ←
    (if bool_decide (TLSCert cmd ≠ "") && bool_decide (TLSKey cmd ≠ "") then
       '(creds, err) ← call (credentials_NewServerTLSFromFile
                               (TLSCert cmd) (TLSKey cmd));
       panic_on err;;
       mret creds
     else
       let '(creds, err) := getLetsEncrypt (LetsEncryptDomain cmd)
                              (LetsEncryptEmail cmd) (LetsEncryptCache cmd) in
       panic_on err;;
       mret creds);
  let grpcServer := {| grpc_Creds := creds; registered := M8SServer srv |} in
  call (grpcServer_Serve grpcServer listen).

Definition run (cmd : cmdServer) : Proc error :=
  run_using getLetsEncrypt cmd.

End Cmd.

(** ** Surroundings to run the programs in *)

(** A cluster and a file system where every call succeeds. *)
Definition calm : World :=
  λ R _ c,
    match c in Call R return R with
    | log_Println _ => tt
    | go_metrics _ _ => tt
    | net_Listen _ _ => (mkListener 3, None)
    | rest_InClusterConfig => (mkRestConfig "https://10.0.0.1:443", None)
    | NewForConfig cfg => (mkClientset cfg, None)
    | addons_CreateTraefik _ _ _ _ _ => None
    | addons_CreateSSHServer _ _ _ _ _ => None
    | addons_CreateBlackDeath _ _ _ _ => None
    | server_New _ _ _ _ _ _ _ _ => (mkM8sServer 1, None)
    | credentials_NewServerTLSFromFile cf kf =>
        (Some (ServerTLSFromFile cf kf), None)
    | grpcServer_Serve _ _ => None
    end.

(** As [calm], but the cluster refuses one addon. *)
Definition refusing (a : Addon) (msg : string) : World :=
  λ R t c,
    match c in Call R return R → R with
    | addons_CreateTraefik _ _ _ _ _ =>
        λ r, if decide (a = Traefik) then Some msg else r
    | addons_CreateSSHServer _ _ _ _ _ =>
        λ r, if decide (a = SSHServer) then Some msg else r
    | addons_CreateBlackDeath _ _ _ _ =>
        λ r, if decide (a = BlackDeath) then Some msg else r
    | _ => λ r, r
    end (calm R t c).

(** As [calm], but no certificate file can be read. *)
Definition no_files (msg : string) : World :=
  λ R t c,
    match c in Call R return R → R with
    | credentials_NewServerTLSFromFile _ _ => λ _, (None, Some msg)
    | _ => λ r, r
    end (calm R t c).

Definition default_flags : PrApi.Flags := {|
  PrApi.cliPort := 443;
  PrApi.cliCert := "";
  PrApi.cliKey := "";
  PrApi.cliToken := "";
  PrApi.cliNamespace := "default";
  PrApi.cliCacheSize := "100Gi";
  PrApi.cliLetsEncryptEmail := "admin@previousnext.com.au";
  PrApi.cliLetsEncryptDomain := "";
  PrApi.cliLetsEncryptCache := "/tmp";
  PrApi.cliBlackDeathImage := "previousnext/k8s-black-death";
  PrApi.cliBlackDeathVersion := "0.0.2";
  PrApi.cliTraefikImage := "traefik";
  PrApi.cliTraefikVersion := "1.3";
  PrApi.cliTraefikPort := 80;
  PrApi.cliSSHImage := "previousnext/k8s-ssh-server";
  PrApi.cliSSHVersion := "0.0.5";
  PrApi.cliSSHPort := 2222
|}.

Definition default_cmd : Cmd.cmdServer := {|
  Cmd.Port := 443;
  Cmd.TLSCert := "";
  Cmd.TLSKey := "";
  Cmd.Token := "";
  Cmd.Namespace := "default";
  Cmd.FilesystemSize := "100Gi";
  Cmd.LetsEncryptEmail := "admin@previousnext.com.au";
  Cmd.LetsEncryptDomain := "";
  Cmd.LetsEncryptCache := "/tmp";
  Cmd.SSHService := "ssh-server";
  Cmd.DockerCfgRegistry := "";
  Cmd.DockerCfgUsername := "";
  Cmd.DockerCfgPassword := "";
  Cmd.DockerCfgEmail := "";
  Cmd.DockerCfgAuth := "";
  Cmd.PrometheusPort := ":9000";
  Cmd.PrometheusPath := "/metrics";
  Cmd.PrometheusApache := 9117
|}.

(** The defaults with a certificate and a key path given. *)
Definition with_tls (cert key : string) (c : Cmd.cmdServer) : Cmd.cmdServer := {|
  Cmd.Port := Cmd.Port c;
  Cmd.TLSCert := cert;
  Cmd.TLSKey := key;
  Cmd.Token := Cmd.Token c;
  Cmd.Namespace := Cmd.Namespace c;
  Cmd.FilesystemSize := Cmd.FilesystemSize c;
  Cmd.LetsEncryptEmail := Cmd.LetsEncryptEmail c;
  Cmd.LetsEncryptDomain := Cmd.LetsEncryptDomain c;
  Cmd.LetsEncryptCache := Cmd.LetsEncryptCache c;
  Cmd.SSHService := Cmd.SSHService c;
  Cmd.DockerCfgRegistry := Cmd.DockerCfgRegistry c;
  Cmd.DockerCfgUsername := Cmd.DockerCfgUsername c;
  Cmd.DockerCfgPassword := Cmd.DockerCfgPassword c;
  Cmd.DockerCfgEmail := Cmd.DockerCfgEmail c;
  Cmd.DockerCfgAuth := Cmd.DockerCfgAuth c;
  Cmd.PrometheusPort := Cmd.PrometheusPort c;
  Cmd.PrometheusPath := Cmd.PrometheusPath c;
  Cmd.PrometheusApache := Cmd.PrometheusApache c
|}.

(** A helper for the automated variant that reports an error, to run
    [Cmd.run_using] with. *)
Definition failing_enrollment (msg : string)
  : string → string → string → option TransportCredentials * error :=
  λ _ _ _, (None, Some msg).

(** The order of the addons: the ingress, the remote-shell gateway, the
    garbage collector. *)
Definition declaration_order : list Addon := [Traefik; SSHServer; BlackDeath].

(** ** Package [env]: the shared cache claim *)

Module env.

(** PersistentVolumeClaimInput provides the PersistentVolumeClaim
    function with information to produce a Kubernetes
    PersistentVolumeClaim. *)
Record PersistentVolumeClaimInput := {
  Namespace : string;
  Name : string;
  Storage : string
}.

(** [v1.PersistentVolumeAccessMode] *)
Inductive PersistentVolumeAccessMode :=
| ReadWriteOnce
| ReadOnlyMany
| ReadWriteMany.

(** [v1.ResourceStorage], a [v1.ResourceName]. *)
Definition ResourceStorage : string := "storage".

(** [metav1.ObjectMeta], with the fields the constructor sets. *)
Record ObjectMeta := {
  meta_Namespace : string;
  meta_Name : string;
  Annotations : gmap string string
}.

Section Quantities.

(** [resource.Quantity] and [resource.ParseQuantity] belong to the
    Kubernetes API machinery, not to this repository: the type and
    the parser are parameters. *)
Context {Quantity : Type}.
Variable ParseQuantity : string → Quantity * error.

(** [resource.MustParse]: "MustParse turns the given string into a
    quantity or panics". *)
Definition MustParse (str : string) : Outcome Quantity :=
  let '(q, err) := ParseQuantity str in
  match err with
  | Some e => Panicked ("cannot parse '" +:+ str +:+ "': " +:+ e)
  | None => Returned q
  end.

(** [v1.ResourceRequirements]; [v1.ResourceList] is a Go map. *)
Record ResourceRequirements := {
  Requests : gmap string Quantity
}.

Record PersistentVolumeClaimSpec := {
  AccessModes : list PersistentVolumeAccessMode;
  Resources : ResourceRequirements
}.

Record v1_PersistentVolumeClaim := {
  Meta : ObjectMeta;
  Spec : PersistentVolumeClaimSpec
}.

(** PersistentVolumeClaim is used for creating a new
    PersistentVolumeClaim object. *)
Definition PersistentVolumeClaim (input : PersistentVolumeClaimInput)
  : Outcome v1_PersistentVolumeClaim :=
  match MustParse (Storage input) with
  | Panicked v => Panicked v
  | Returned storage =>
      Returned {|
        Meta := {|
          meta_Namespace := Namespace input;
          meta_Name := Name input;
          Annotations :=
            (* Setting this storage class to "cache" allows system
               admins to register any type of storage backend for
               "cache" claims. *)
            <["volume.beta.kubernetes.io/storage-class" := "cache"]>
              (<["author" := "m8s"]> ∅)
        |};
        Spec := {|
          AccessModes := [ReadWriteMany];
          Resources := {|
            Requests := <[ResourceStorage := storage]> ∅
          |}
        |}
      |}
  end.

End Quantities.

(** A stand-in for the library parser, enough to run the constructor:
    whole numbers with an optional binary suffix, as bytes. *)
Definition binary_suffix (s : string) : option Z :=
  if decide (s = "") then Some 1
  else if decide (s = "Ki") then Some (2 ^ 10)
  else if decide (s = "Mi") then Some (2 ^ 20)
  else if decide (s = "Gi") then Some (2 ^ 30)
  else if decide (s = "Ti") then Some (2 ^ 40)
  else None.

Definition is_digit (c : ascii) : bool :=
  (48 <=? Z.of_N (N_of_ascii c)) && (Z.of_N (N_of_ascii c) <=? 57).

Fixpoint digits_then (acc : option Z) (s : string) : option Z * string :=
  match s with
  | String c s' =>
      if is_digit c
      then digits_then
             (Some (10 * default 0 acc + (Z.of_N (N_of_ascii c) - 48))) s'
      else (acc, s)
  | EmptyString => (acc, s)
  end.

Definition parse_bytes (s : string) : Z * error :=
  match digits_then None s with
  | (Some n, rest) =>
      match binary_suffix rest with
      | Some k => (n * k, None)
      | None => (0, Some "quantities must match the regular expression")
      end
  | (None, _) => (0, Some "quantities must match the regular expression")
  end.

End env.

(** ** The environment lifecycle of the design document *)

(** Modelled from the spec: the [server] package behind the RPC surface
    ([Build], [Status], [Destroy]) is not among the sources, which only
    obtain it from [server.New] and register it. What follows is the
    Environment Build Orchestrator, its data model, the cluster resource
    store and the Expiry Metadata contract as sections 3, 4.2, 4.4 and
    4.5 of the design document word them. Times and durations are whole
    seconds. *)
Module Orchestrator.

(** Modelled from the spec: an Environment's [identity] (namespace +
    name), the key of every record in the cluster store. *)
Record Identity := { namespace : string; name : string }.

#[global] Instance Identity_eq_dec : EqDecision Identity.
Proof. solve_decision. Defined.

#[global] Instance Identity_countable : Countable Identity.
Proof.
  refine (inj_countable' (λ i, (namespace i, name i))
            (λ p, {| namespace := p.1; name := p.2 |}) _).
  by intros [].
Defined.

(** Modelled from the spec: the Expiry Metadata contract of section
    4.5, [{createdAt, ttl, owner}] attached as labels. The document
    shows a ttl label as a count with a unit (["24h"]). *)
Module Expiry.

Record Metadata := { createdAt : N; ttl : N; owner : string }.

Definition render_count (n : N) : string :=
  NilZero.string_of_uint (N.to_uint n).

Definition parse_count (s : string) : option N :=
  N.of_uint <$> NilZero.uint_of_string s.

Definition unit_seconds (u : ascii) : option N :=
  if decide (u = "h"%char) then Some 3600%N
  else if decide (u = "m"%char) then Some 60%N
  else if decide (u = "s"%char) then Some 1%N
  else None.

(** The largest unit that loses nothing. *)
Definition render_ttl (d : N) : string :=
  if decide (d `mod` 3600 = 0)%N then render_count (d `div` 3600) +:+ "h"
  else if decide (d `mod` 60 = 0)%N then render_count (d `div` 60) +:+ "m"
  else render_count d +:+ "s".

Fixpoint split_last (s : string) : option (string * ascii) :=
  match s with
  | EmptyString => None
  | String c s' =>
      match split_last s' with
      | None => Some (EmptyString, c)
      | Some (front, u) => Some (String c front, u)
      end
  end.

Definition parse_ttl (s : string) : option N :=
  '(count, u) ← split_last s;
  n ← parse_count count;
  k ← unit_seconds u;
  Some (n * k)%N.

(** What the orchestrator writes on a workload. *)
Definition stamp (m : Metadata) : gmap string string :=
  <["createdAt" := render_count (createdAt m)]>
    (<["ttl" := render_ttl (ttl m)]>
       (<["owner" := owner m]> ∅)).

(** What the sweeper reads back. *)
Definition read (labels : gmap string string) : option Metadata :=
  c ← labels !! "createdAt" ≫= parse_count;
  t ← labels !! "ttl" ≫= parse_ttl;
  o ← labels !! "owner";
  Some {| createdAt := c; ttl := t; owner := o |}.

End Expiry.

(** Modelled from the spec: the state machine of section 4.4. *)
Inductive Status :=
| Requested
| Provisioning
| Ready
| Failed
| Destroying
| Destroyed.

#[global] Instance Status_eq_dec : EqDecision Status.
Proof. solve_decision. Defined.

(** "Terminal states: Destroyed." *)
Definition terminal (st : Status) : bool :=
  match st with
  | Destroyed => true
  | _ => false
  end.

(** Modelled from the spec: the Environment of section 3. *)
Record Environment := {
  identity : Identity;
  requestedAt : N;
  ttl : N;
  registryCredential : string;
  desiredImage : string;
  status : Status
}.

Definition with_status (st : Status) (e : Environment) : Environment := {|
  identity := identity e;
  requestedAt := requestedAt e;
  ttl := ttl e;
  registryCredential := registryCredential e;
  desiredImage := desiredImage e;
  status := st
|}.

(** Modelled from the spec: the records section 6 lists in the
    cluster resource store. *)
Record Workload := { image : string; labels : gmap string string }.
Record Route := { ingress : option Z; remoteShell : option Z }.
Record Secret := { credential : string }.

(** Modelled from the spec: the CacheVolumeSpec of section 3. *)
Record CacheVolumeSpec := {
  cache_namespace : string;
  cache_name : string;
  sizeRequest : string;
  accessMode : env.PersistentVolumeAccessMode
}.

(** Modelled from the spec: the cluster resource store, keyed by
    namespace + name; one cache claim per namespace. *)
Record Cluster := {
  workloads : gmap Identity Workload;
  routes : gmap Identity Route;
  secrets : gmap Identity Secret;
  cacheClaims : gmap string CacheVolumeSpec
}.

Inductive ApiError := AlreadyExists | Unavailable.

(** Modelled from the spec: the store's create call, which "itself
    rejects duplicate names"; [fault] stands for any other failure of
    the cluster API. *)
Definition create {V : Type} (fault : bool) (id : Identity) (v : V)
    (m : gmap Identity V) : ApiError + gmap Identity V :=
  if fault then inl Unavailable
  else match m !! id with
       | Some _ => inl AlreadyExists
       | None => inr (<[id := v]> m)
       end.

(** Modelled from the spec: the Cache Volume Manager of section 4.2,
    an idempotent create-if-absent. *)
Definition EnsureCacheVolume (ns size : string) (c : Cluster) : Cluster :=
  match cacheClaims c !! ns with
  | Some _ => c
  | None => {|
      workloads := workloads c;
      routes := routes c;
      secrets := secrets c;
      cacheClaims :=
        <[ns := {| cache_namespace := ns; cache_name := "cache";
                   sizeRequest := size;
                   accessMode := env.ReadWriteMany |}]> (cacheClaims c)
    |}
  end.

(** The ports of the ingress and remote-shell addons set up at
    bootstrap. *)
Record Addons := { ingressPort : Z; remoteShellPort : Z }.

Record BuildRequest := {
  req_identity : Identity;
  req_image : string;
  req_registryCredential : string;
  req_ttl : N;
  req_ingress : bool;
  req_remoteShell : bool
}.

Record State := { envs : gmap Identity Environment; cluster : Cluster }.

Definition empty_cluster : Cluster :=
  {| workloads := ∅; routes := ∅; secrets := ∅; cacheClaims := ∅ |}.

(** The service once the cache claim of its namespace is ensured. *)
Definition started (ns size : string) : State :=
  {| envs := ∅; cluster := EnsureCacheVolume ns size empty_cluster |}.

(** The status of the active (non-terminal) Environment, if any. *)
Definition active (s : State) (id : Identity) : option Status :=
  e ← envs s !! id;
  if terminal (status e) then None else Some (status e).

Definition set_status (id : Identity) (st : Status) (s : State) : State :=
  {| envs := alter (with_status st) id (envs s); cluster := cluster s |}.

(** A new Environment enters as [Requested] and moves on to
    [Provisioning]. *)
Definition enter (req : BuildRequest) (now : N) (s : State) : State :=
  set_status (req_identity req) Provisioning
    {| envs := <[req_identity req :=
                  {| identity := req_identity req;
                     requestedAt := now;
                     ttl := req_ttl req;
                     registryCredential := req_registryCredential req;
                     desiredImage := req_image req;
                     status := Requested |}]> (envs s);
       cluster := cluster s |}.

(** The resource-creation steps of provisioning, in order. *)
Inductive Step := SecretStep | WorkloadStep | RouteStep.

Definition stamped_workload (req : BuildRequest) (now : N) : Workload :=
  {| image := req_image req;
     labels := Expiry.stamp
                 {| Expiry.createdAt := now;
                    Expiry.ttl := req_ttl req;
                    Expiry.owner := name (req_identity req) |} |}.

Definition route_for (a : Addons) (req : BuildRequest) : Route :=
  {| ingress := if req_ingress req then Some (ingressPort a) else None;
     remoteShell :=
       if req_remoteShell req then Some (remoteShellPort a) else None |}.

(** Modelled from the spec: "Provisioning composes, in order:
    registry-credential secret, primary workload (stamped with Expiry
    Metadata), network route"; a failing step leaves what was created
    in place. The boolean tells whether every step succeeded. *)
Definition compose (a : Addons) (req : BuildRequest) (now : N)
    (faults : Step → bool) (c : Cluster) : Cluster * bool :=
  let id := req_identity req in
  match create (faults SecretStep) id
          {| credential := req_registryCredential req |} (secrets c) with
  | inl _ => (c, false)
  | inr ss =>
      let c1 := {| workloads := workloads c; routes := routes c;
                   secrets := ss; cacheClaims := cacheClaims c |} in
      match create (faults WorkloadStep) id (stamped_workload req now)
              (workloads c1) with
      | inl _ => (c1, false)
      | inr ws =>
          let c2 := {| workloads := ws; routes := routes c1;
                       secrets := secrets c1;
                       cacheClaims := cacheClaims c1 |} in
          match create (faults RouteStep) id (route_for a req)
                  (routes c2) with
          | inl _ => (c2, false)
          | inr rs =>
              ({| workloads := workloads c2; routes := rs;
                  secrets := secrets c2;
                  cacheClaims := cacheClaims c2 |}, true)
          end
      end
  end.

Definition provision (a : Addons) (req : BuildRequest) (now : N)
    (faults : Step → bool) (s : State) : Status * State :=
  let '(c, ok) := compose a req now faults (cluster s) in
  let st := if ok then Ready else Failed in
  (st, set_status (req_identity req) st {| envs := envs s; cluster := c |}).

(** Modelled from the spec: [Build] of section 4.4. An active
    Environment for the identity is answered with its status;
    otherwise the Environment goes [Requested], [Provisioning] and
    then [Ready] or [Failed]. *)
Definition Build (a : Addons) (req : BuildRequest) (now : N)
    (faults : Step → bool) (s : State) : Status * State :=
  match active s (req_identity req) with
  | Some st => (st, s)
  | None => provision a req now faults (enter req now s)
  end.

(** The answers of [Destroy]. *)
Module Ack.
Inductive t := Destroyed | NotFound.
End Ack.

(** Deletes the identity's workload, route and secret. *)
Definition release (id : Identity) (c : Cluster) : Cluster :=
  {| workloads := delete id (workloads c);
     routes := delete id (routes c);
     secrets := delete id (secrets c);
     cacheClaims := cacheClaims c |}.

(** Modelled from the spec: [Destroy] of section 4.4. The document
    names no answer for an Environment that is still being
    provisioned; here every Environment that is not yet [Destroyed]
    is torn down. *)
Definition Destroy (id : Identity) (s : State) : Ack.t * State :=
  match active s id with
  | None => (Ack.NotFound, s)
  | Some _ =>
      (Ack.Destroyed,
       set_status id Destroyed
         (set_status id Destroying
            {| envs := envs s; cluster := release id (cluster s) |}))
  end.

(** Sequences of calls on the RPC surface. *)
Inductive Op :=
| OpBuild (req : BuildRequest) (now : N) (faults : Step → bool)
| OpDestroy (id : Identity).

Inductive Reply :=
| BuildReply (st : Status)
| DestroyReply (a : Ack.t).

Definition step (a : Addons) (op : Op) (s : State) : Reply * State :=
  match op with
  | OpBuild req now faults =>
      let '(st, s') := Build a req now faults s in (BuildReply st, s')
  | OpDestroy id =>
      let '(r, s') := Destroy id s in (DestroyReply r, s')
  end.

Fixpoint run (a : Addons) (ops : list Op) (s : State)
    : list Reply * State :=
  match ops with
  | [] => ([], s)
  | op :: ops' =>
      let '(r, s1) := step a op s in
      let '(rs, s2) := run a ops' s1 in
      (r :: rs, s2)
  end.

(** The expiry metadata invariant: the workload of every [Ready]
    Environment carries labels the sweeper reads back as the time the
    Environment was requested at, its ttl and its name. *)
Definition stamped (s : State) : Prop :=
  ∀ id e,
    envs s !! id = Some e →
    status e = Ready →
    ∃ w, workloads (cluster s) !! id = Some w
         ∧ Expiry.read (labels w)
           = Some {| Expiry.createdAt := requestedAt e;
                     Expiry.ttl := ttl e;
                     Expiry.owner := name id |}.

(** The scenario of section 8. *)
Definition pr42 : BuildRequest :=
  {| req_identity := {| namespace := "default"; name := "pr-42" |};
     req_image := "app:1.0";
     req_registryCredential := "registry-token";
     req_ttl := 86400;
     req_ingress := true;
     req_remoteShell := true |}.

Definition pr9 : BuildRequest :=
  {| req_identity := {| namespace := "default"; name := "pr-9" |};
     req_image := "app:0.9";
     req_registryCredential := "registry-token";
     req_ttl := 5400;
     req_ingress := false;
     req_remoteShell := true |}.

Definition addons_80_2222 : Addons :=
  {| ingressPort := 80; remoteShellPort := 2222 |}.

Definition no_faults : Step → bool := λ _, false.

End Orchestrator.

(** ** Further observations on a trace *)

(** What kind of call an event is. *)
Inductive Kind :=
| KLog (msg : string)
| KGo
| KListen
| KConfig
| KClient
| KAddon (a : Addon)
| KNewServer
| KLoad
| KServe.

Definition kind (e : Event) : Kind :=
  match e with
  | Ev c _ =>
      match c with
      | log_Println msg => KLog msg
      | go_metrics _ _ => KGo
      | net_Listen _ _ => KListen
      | rest_InClusterConfig => KConfig
      | NewForConfig _ => KClient
      | addons_CreateTraefik _ _ _ _ _ => KAddon Traefik
      | addons_CreateSSHServer _ _ _ _ _ => KAddon SSHServer
      | addons_CreateBlackDeath _ _ _ _ => KAddon BlackDeath
      | server_New _ _ _ _ _ _ _ _ => KNewServer
      | credentials_NewServerTLSFromFile _ _ => KLoad
      | grpcServer_Serve _ _ => KServe
      end
  end.

Definition kinds (t : Trace) : list Kind := kind <$> t.

(** The calls of [main], in the order the source makes them. *)
Definition main_order (static : bool) : list Kind :=
  [KLog "Starting"; KListen; KConfig; KClient;
   KLog "Installing addon: traefik"; KAddon Traefik;
   KLog "Installing addon: ssh-server"; KAddon SSHServer;
   KLog "Installing addon: black-death"; KAddon BlackDeath;
   KLog "Booting API"]
  ++ (if static then [KLoad] else []) ++ [KServe].

(** The calls of [run], in the order the source makes them. *)
Definition run_order (static : bool) : list Kind :=
  [KLog "Starting Prometheus Endpoint"; KGo; KLog "Starting Server";
   KListen; KConfig; KClient; KLog "Booting API"; KNewServer]
  ++ (if static then [KLoad] else []) ++ [KServe].

(** The port an event binds: network, address, listener and error. *)
Definition listened (e : Event) : option (string * string * Listener * error) :=
  match e with
  | Ev c r =>
      match c in Call R return R → option (string * string * Listener * error)
      with
      | net_Listen network address => λ r, Some (network, address, r.1, r.2)
      | _ => λ _, None
      end r
  end.

Definition listens (t : Trace) : list (string * string * Listener * error) :=
  omap listened t.

(** The in-cluster configuration an event loads. *)
Definition config_loaded (e : Event) : option (RestConfig * error) :=
  match e with
  | Ev c r =>
      match c in Call R return R → option (RestConfig * error) with
      | rest_InClusterConfig => λ r, Some r
      | _ => λ _, None
      end r
  end.

Definition configs_loaded (t : Trace) : list (RestConfig * error) :=
  omap config_loaded t.

(** The clientset an event builds: the configuration it is built for,
    the clientset and the error. *)
Definition client_built (e : Event) : option (RestConfig * Clientset * error) :=
  match e with
  | Ev c r =>
      match c in Call R return R → option (RestConfig * Clientset * error) with
      | NewForConfig cfg => λ r, Some (cfg, r.1, r.2)
      | _ => λ _, None
      end r
  end.

Definition clients_built (t : Trace) : list (RestConfig * Clientset * error) :=
  omap client_built t.

(** The errors of the calls both binaries start with: binding the
    port, loading the configuration, building the clientset. *)
Definition prelude_error (e : Event) : option error :=
  match e with
  | Ev c r =>
      match c in Call R return R → option error with
      | net_Listen _ _ => λ r, Some r.2
      | rest_InClusterConfig => λ r, Some r.2
      | NewForConfig _ => λ r, Some r.2
      | _ => λ _, None
      end r
  end.

Definition prelude_errors (t : Trace) : list error := omap prelude_error t.

(** What an addon creation is called with. *)
Record AddonCall := {
  ac_addon : Addon;
  ac_client : Clientset;
  ac_namespace : string;
  ac_image : string;
  ac_version : string;
  ac_port : option Z
}.

Definition addon_call (e : Event) : option AddonCall :=
  match e with
  | Ev c _ =>
      match c with
      | addons_CreateTraefik cl ns image version port =>
          Some {| ac_addon := Traefik; ac_client := cl; ac_namespace := ns;
                  ac_image := image; ac_version := version;
                  ac_port := Some port |}
      | addons_CreateSSHServer cl ns image version port =>
          Some {| ac_addon := SSHServer; ac_client := cl; ac_namespace := ns;
                  ac_image := image; ac_version := version;
                  ac_port := Some port |}
      | addons_CreateBlackDeath cl ns image version =>
          Some {| ac_addon := BlackDeath; ac_client := cl; ac_namespace := ns;
                  ac_image := image; ac_version := version;
                  ac_port := None |}
      | _ => None
      end
  end.

Definition addon_calls (t : Trace) : list AddonCall := omap addon_call t.

(** The metrics goroutine an event starts. *)
Definition metrics_started (e : Event) : option (string * string) :=
  match e with
  | Ev c _ =>
      match c with
      | go_metrics port path => Some (port, path)
      | _ => None
      end
  end.

Definition metrics_starts (t : Trace) : list (string * string) :=
  omap metrics_started t.

(** What [server.New] is called with, and what it returns. *)
Record NewServerCall := {
  ns_client : Clientset;
  ns_config : RestConfig;
  ns_token : string;
  ns_namespace : string;
  ns_sshService : string;
  ns_fsSize : string;
  ns_apachePort : Z;
  ns_registry : DockerRegistry;
  ns_server : M8sServer;
  ns_error : error
}.

Definition new_server_call (e : Event) : option NewServerCall :=
  match e with
  | Ev c r =>
      match c in Call R return R → option NewServerCall with
      | server_New cl cfg token ns ssh fs apache reg =>
          λ r, Some {| ns_client := cl; ns_config := cfg; ns_token := token;
                       ns_namespace := ns; ns_sshService := ssh;
                       ns_fsSize := fs; ns_apachePort := apache;
                       ns_registry := reg; ns_server := r.1;
                       ns_error := r.2 |}
      | _ => λ _, None
      end r
  end.

Definition new_server_calls (t : Trace) : list NewServerCall :=
  omap new_server_call t.

(** The credentials a load of the static files returns. *)
Definition credentials_loaded (e : Event)
  : option (option TransportCredentials * error) :=
  match e with
  | Ev c r =>
      match c in Call R return R → option (option TransportCredentials * error)
      with
      | credentials_NewServerTLSFromFile _ _ => λ r, Some r
      | _ => λ _, None
      end r
  end.

Definition loaded_credentials (t : Trace)
  : list (option TransportCredentials * error) :=
  omap credentials_loaded t.

(** The gRPC server an event serves, on which listener, and the error
    [Serve] returns in the end. *)
Definition serve_call (e : Event) : option (GrpcServer * Listener * error) :=
  match e with
  | Ev c r =>
      match c in Call R return R → option (GrpcServer * Listener * error) with
      | grpcServer_Serve g lis => λ r, Some (g, lis, r)
      | _ => λ _, None
      end r
  end.

Definition serve_calls (t : Trace) : list (GrpcServer * Listener * error) :=
  omap serve_call t.

(** Reads a listen address of the form [":<port>"] back. *)
Definition port_of_address (address : string) : option Z :=
  match address with
  | String ":" digits => Z.of_int <$> NilZero.int_of_string digits
  | _ => None
  end.

(** The default flags of the older binary with a certificate and a key
    path given. *)
Definition default_flags_with_tls : PrApi.Flags := {|
  PrApi.cliPort := 443;
  PrApi.cliCert := "tls.crt";
  PrApi.cliKey := "tls.key";
  PrApi.cliToken := "";
  PrApi.cliNamespace := "default";
  PrApi.cliCacheSize := "100Gi";
  PrApi.cliLetsEncryptEmail := "admin@previousnext.com.au";
  PrApi.cliLetsEncryptDomain := "";
  PrApi.cliLetsEncryptCache := "/tmp";
  PrApi.cliBlackDeathImage := "previousnext/k8s-black-death";
  PrApi.cliBlackDeathVersion := "0.0.2";
  PrApi.cliTraefikImage := "traefik";
  PrApi.cliTraefikVersion := "1.3";
  PrApi.cliTraefikPort := 80;
  PrApi.cliSSHImage := "previousnext/k8s-ssh-server";
  PrApi.cliSSHVersion := "0.0.5";
  PrApi.cliSSHPort := 2222
|}.

(** As [calm], but the process does not run inside a cluster. *)
Definition outside_cluster (msg : string) : World :=
  λ R t c,
    match c in Call R return R → R with
    | rest_InClusterConfig => λ r, (r.1, Some msg)
    | _ => λ r, r
    end (calm R t c).

(** As [calm], but [Serve] comes back with an error. *)
Definition serve_stops (msg : string) : World :=
  λ R t c,
    match c in Call R return R → R with
    | grpcServer_Serve _ _ => λ _, Some msg
    | _ => λ r, r
    end (calm R t c).

(** * Properties *)

(** ** Start-up of the [pr] API binary *)

(** Unfolds the monad so that the next call to the surroundings shows. *)
Ltac proc_unfold :=
  unfold exec, mbind, Proc_bind, bind, call, panic_on, panic, mret,
    Proc_ret, ret in *;
  cbn [fst snd] in *.

(** Splits on what the surroundings answer to the next call. *)
Ltac answer w :=
  match goal with
  | |- context [w ?R ?t ?c] =>
      destruct (w R t c);
      repeat match goal with
             | x : (_ * _)%type |- _ => destruct x
             | x : error |- _ => destruct x
             | x : unit |- _ => destruct x
             end;
      cbn [fst snd app] in *
  end.

Ltac answers w := proc_unfold; repeat answer w.

Section Main.

Variable f : PrApi.Flags.
Variable w : World.

Let t := (exec (PrApi.main f) w).1.
Let o := (exec (PrApi.main f) w).2.

Lemma main_addon_shapes :
  (∃ msg, o = Panicked msg ∧ serving t = [] ∧
     (addon_results t = []
      ∨ addon_results t = [(Traefik, Some msg)]
      ∨ addon_results t = [(Traefik, None); (SSHServer, Some msg)]
      ∨ addon_results t = [(Traefik, None); (SSHServer, None);
                           (BlackDeath, Some msg)]
      ∨ addon_results t = [(Traefik, None); (SSHServer, None);
                           (BlackDeath, None)]))
  ∨ (length (serving t) = 1%nat ∧
     addon_results t = [(Traefik, None); (SSHServer, None);
                        (BlackDeath, None)]).
Proof.
  subst t o. unfold PrApi.main.
  answers w.
  all: try (left; eexists; split; [reflexivity|]; split; [reflexivity|];
            cbn; eauto 10; fail).
  all: repeat case_bool_decide; cbn [andb]; proc_unfold; repeat answer w.
  all: try (right; split; reflexivity).
  all: left; eexists; split; [reflexivity|]; split; [reflexivity|];
         cbn; eauto 10.
Qed.

End Main.

(** C5: at start-up [main] installs the addons one after the other in
    declaration order: traefik first, then ssh-server, then black-death.
    The addons whose creation was attempted always form a prefix of that
    order, every attempt that is followed by another one returned without
    error, and a process that reaches serving has attempted all three. *)
Theorem main_installs_addons_in_declaration_order
    (f : PrApi.Flags) (w : World) :
  let rs := addon_results (exec (PrApi.main f) w).1 in
  rs.*1 `prefix_of` declaration_order
  ∧ (∀ i a err, rs !! i = Some (a, err) → (S i < length rs)%nat → err = None)
  ∧ (serving (exec (PrApi.main f) w).1 ≠ [] → rs.*1 = declaration_order).
Proof.
  cbv zeta.
  destruct (main_addon_shapes f w) as [(msg & _ & Hs & Hr)|[Hs Hr]].
  - rewrite Hs.
    destruct Hr as [-> | [-> | [-> | [-> | ->]]]]; cbn;
      (split; [|split; [|done]]);
      try (by eexists; reflexivity);
      intros [|[|[|i]]] a err Hi Hlen; cbn in Hi, Hlen;
      try lia; congruence.
  - rewrite Hr. cbn. split; [by exists []|]. split; [|done].
    intros [|[|[|i]]] a err Hi Hlen; cbn in Hi, Hlen; try lia; congruence.
Qed.

Lemma main_installs_addons_in_declaration_order_witness :
  (addon_results (exec (PrApi.main default_flags) calm).1).*1
  = declaration_order.
Proof.
  pose proof (main_installs_addons_in_declaration_order default_flags calm)
    as H.
  cbv zeta in H. destruct H as (_ & _ & H). apply H.
  vm_compute. discriminate.
Defined.

(** C6: any error an addon creation returns to [main] aborts start-up:
    the process panics with that error and never starts serving. This
    holds for every non-nil error, so in particular for every cluster-API
    error other than "already exists". *)
Theorem main_addon_error_aborts_startup
    (f : PrApi.Flags) (w : World) (a : Addon) (msg : string) :
  (a, Some msg) ∈ addon_results (exec (PrApi.main f) w).1 →
  (exec (PrApi.main f) w).2 = Panicked msg
  ∧ serving (exec (PrApi.main f) w).1 = [].
Proof.
  destruct (main_addon_shapes f w) as [(msg' & Ho & Hs & Hr)|[Hs Hr]].
  - rewrite Ho, Hs.
    destruct Hr as [-> | [-> | [-> | [-> | ->]]]];
      intros H; apply list_elem_of_In in H; cbn in H;
      intuition congruence.
  - rewrite Hr. intros H. apply list_elem_of_In in H. cbn in H.
    intuition congruence.
Qed.

Lemma main_addon_error_aborts_startup_witness :
  (exec (PrApi.main default_flags) (refusing SSHServer "forbidden")).2
  = Panicked "forbidden"
  ∧ serving
      (exec (PrApi.main default_flags) (refusing SSHServer "forbidden")).1
    = [].
Proof.
  apply (main_addon_error_aborts_startup default_flags
           (refusing SSHServer "forbidden") SSHServer "forbidden").
  vm_compute. apply list_elem_of_further, list_elem_of_here.
Defined.

(** ** Start-up of the [server] sub-command *)

Section Run.

Variable getLE : string → string → string
                 → option TransportCredentials * error.
Variable cmd : Cmd.cmdServer.
Variable w : World.

Let t := (exec (Cmd.run_using getLE cmd) w).1.
Let o := (exec (Cmd.run_using getLE cmd) w).2.
Let automated :=
  getLE (Cmd.LetsEncryptDomain cmd) (Cmd.LetsEncryptEmail cmd)
    (Cmd.LetsEncryptCache cmd).

(** Every way a run of the sub-command can go. *)
Lemma run_shapes :
  (new_server_errors t ≠ [None] ∧ static_loads t = [] ∧ serving t = []
   ∧ ∃ msg, o = Panicked msg)
  ∨ (new_server_errors t = [None]
     ∧ Cmd.TLSCert cmd ≠ "" ∧ Cmd.TLSKey cmd ≠ ""
     ∧ ((∃ msg, static_loads t = [(Cmd.TLSCert cmd, Cmd.TLSKey cmd, Some msg)]
                ∧ serving t = [] ∧ o = Panicked msg)
        ∨ (static_loads t = [(Cmd.TLSCert cmd, Cmd.TLSKey cmd, None)]
           ∧ length (serving t) = 1%nat ∧ ∃ err, o = Returned err)))
  ∨ (new_server_errors t = [None]
     ∧ (Cmd.TLSCert cmd = "" ∨ Cmd.TLSKey cmd = "")
     ∧ static_loads t = []
     ∧ ((∃ msg, automated.2 = Some msg ∧ serving t = [] ∧ o = Panicked msg)
        ∨ (automated.2 = None
           ∧ (∃ srv, serving t = [{| grpc_Creds := automated.1;
                                     registered := M8SServer srv |}])
           ∧ ∃ err, o = Returned err))).
Proof.
  subst t o automated. unfold Cmd.run_using.
  answers w.
  all: try (left; cbn; repeat split; eauto; congruence).
  all: right.
  all: repeat case_bool_decide; cbn [andb]; proc_unfold.
  all: try (destruct (getLE _ _ _) as [creds [msg|]]; proc_unfold).
  all: repeat answer w; cbn.
  all: try (left; repeat split; eauto 10; fail).
  all: right; repeat split; eauto 10;
    destruct (decide (Cmd.TLSCert cmd = "")); eauto;
    destruct (decide (Cmd.TLSKey cmd = "")); eauto; tauto.
Qed.

End Run.

(** C7: failing to obtain a transport credential is fatal at start-up.
    When loading the static certificate and key files returns an error,
    and likewise when the helper of the automated variant returns one,
    [run] panics with that error and the gRPC server never serves. *)
Theorem run_credential_failure_is_fatal
    (getLE : string → string → string → option TransportCredentials * error)
    (cmd : Cmd.cmdServer) (w : World) :
  let t := (exec (Cmd.run_using getLE cmd) w).1 in
  let o := (exec (Cmd.run_using getLE cmd) w).2 in
  (∀ cf kf msg,
     (cf, kf, Some msg) ∈ static_loads t → o = Panicked msg ∧ serving t = [])
  ∧ (∀ msg,
       new_server_errors t = [None] →
       Cmd.TLSCert cmd = "" ∨ Cmd.TLSKey cmd = "" →
       (getLE (Cmd.LetsEncryptDomain cmd) (Cmd.LetsEncryptEmail cmd)
          (Cmd.LetsEncryptCache cmd)).2 = Some msg →
       o = Panicked msg ∧ serving t = []).
Proof.
  cbv zeta.
  destruct (run_shapes getLE cmd w)
    as [(Hn & Hl & Hs & msg' & Ho)
       |[(Hn & Hc & Hk & [(msg' & Hl & Hs & Ho)|(Hl & Hs & err & Ho)])
        |(Hn & Hck & Hl & [(msg' & Ha & Hs & Ho)|(Ha & _ & _)])]];
    cbv zeta in *.
  - split; [intros cf kf msg H; rewrite Hl in H; by apply elem_of_nil in H|].
    intros msg H. congruence.
  - split.
    + intros cf kf msg H. rewrite Hl in H.
      apply list_elem_of_In in H. cbn in H. intuition congruence.
    + intros msg _ [?|?]; congruence.
  - split.
    + intros cf kf msg H. rewrite Hl in H.
      apply list_elem_of_In in H. cbn in H. intuition congruence.
    + intros msg _ [?|?]; congruence.
  - split; [intros cf kf msg H; rewrite Hl in H; by apply elem_of_nil in H|].
    intros msg _ _ Hg. split; congruence.
  - split; [intros cf kf msg H; rewrite Hl in H; by apply elem_of_nil in H|].
    intros msg _ _ Hg. congruence.
Qed.

Lemma run_credential_failure_is_fatal_witness :
  ((exec (Cmd.run (with_tls "tls.crt" "tls.key" default_cmd))
      (no_files "open tls.crt: no such file or directory")).2
   = Panicked "open tls.crt: no such file or directory"
   ∧ serving
       (exec (Cmd.run (with_tls "tls.crt" "tls.key" default_cmd))
          (no_files "open tls.crt: no such file or directory")).1 = [])
  ∧ ((exec (Cmd.run_using (failing_enrollment "acme: no directory")
              default_cmd) calm).2
     = Panicked "acme: no directory"
     ∧ serving
         (exec (Cmd.run_using (failing_enrollment "acme: no directory")
                  default_cmd) calm).1 = []).
Proof.
  split.
  - apply (run_credential_failure_is_fatal Cmd.getLetsEncrypt
             (with_tls "tls.crt" "tls.key" default_cmd)
             (no_files "open tls.crt: no such file or directory")) 
      with (cf := "tls.crt") (kf := "tls.key").
    vm_compute. apply list_elem_of_here.
  - apply (run_credential_failure_is_fatal
             (failing_enrollment "acme: no directory") default_cmd calm).
    + vm_compute. reflexivity.
    + left. reflexivity.
    + reflexivity.
Defined.

(** C9: the automated credential path cannot fail at start-up. In both
    binaries [getLetsEncrypt] returns non-nil credentials and a nil error
    whatever the domain, the email and the cache directory are; and so a
    [run] that got its server and was not given both a certificate and a
    key loads no file, does not panic, and serves with the credentials of
    the helper. Problems with the enrollment can only show once the
    certificate getter is called, that is during a handshake. *)
Theorem getLetsEncrypt_never_fails_at_startup
    (domain email cache : string) :
  (∃ creds, Cmd.getLetsEncrypt domain email cache = (Some creds, None))
  ∧ (∃ creds, PrApi.getLetsEncrypt domain email cache = (Some creds, None))
  ∧ ∀ (cmd : Cmd.cmdServer) (w : World),
      Cmd.LetsEncryptDomain cmd = domain →
      Cmd.LetsEncryptEmail cmd = email →
      Cmd.LetsEncryptCache cmd = cache →
      new_server_errors (exec (Cmd.run cmd) w).1 = [None] →
      Cmd.TLSCert cmd = "" ∨ Cmd.TLSKey cmd = "" →
      static_loads (exec (Cmd.run cmd) w).1 = []
      ∧ (∃ srv, serving (exec (Cmd.run cmd) w).1
                = [{| grpc_Creds := (Cmd.getLetsEncrypt domain email cache).1;
                      registered := M8SServer srv |}])
      ∧ ∃ err, (exec (Cmd.run cmd) w).2 = Returned err.
Proof.
  split; [by eexists|]. split; [by eexists|].
  intros cmd w <- <- <- Hn Hck. unfold Cmd.run in *.
  destruct (run_shapes Cmd.getLetsEncrypt cmd w)
    as [(Hn' & _)
       |[(_ & Hc & Hk & _)
        |(_ & _ & Hl & [(msg' & Ha & _)|(_ & Hs & Ho)])]];
    cbv zeta in *.
  - contradiction.
  - destruct Hck; contradiction.
  - discriminate Ha.
  - auto.
Qed.

Lemma getLetsEncrypt_never_fails_at_startup_witness :
  static_loads (exec (Cmd.run (with_tls "tls.crt" "" default_cmd)) calm).1 = []
  ∧ (∃ srv, serving (exec (Cmd.run (with_tls "tls.crt" "" default_cmd)) calm).1
            = [{| grpc_Creds :=
                    (Cmd.getLetsEncrypt "" "admin@previousnext.com.au" "/tmp").1;
                  registered := M8SServer srv |}])
  ∧ ∃ err, (exec (Cmd.run (with_tls "tls.crt" "" default_cmd)) calm).2
           = Returned err.
Proof.
  apply (getLetsEncrypt_never_fails_at_startup
           "" "admin@previousnext.com.au" "/tmp").
  - reflexivity.
  - reflexivity.
  - reflexivity.
  - vm_compute. reflexivity.
  - right. reflexivity.
Defined.

(** C10: the static variant is selected exactly when both the certificate
    path and the key path are non-empty. A [run] that got its server
    loads the two files if and only if both paths are given; when one of
    them is empty, also when the other one is given, no file is loaded,
    nothing is reported, and the process serves with the credentials of
    the Let's Encrypt helper. *)
Theorem static_variant_iff_both_paths (cmd : Cmd.cmdServer) (w : World) :
  new_server_errors (exec (Cmd.run cmd) w).1 = [None] →
  ((∃ err, static_loads (exec (Cmd.run cmd) w).1
           = [(Cmd.TLSCert cmd, Cmd.TLSKey cmd, err)])
   ↔ Cmd.TLSCert cmd ≠ "" ∧ Cmd.TLSKey cmd ≠ "")
  ∧ (Cmd.TLSCert cmd = "" ∨ Cmd.TLSKey cmd = "" →
     static_loads (exec (Cmd.run cmd) w).1 = []
     ∧ (∃ srv, serving (exec (Cmd.run cmd) w).1
               = [{| grpc_Creds :=
                       (Cmd.getLetsEncrypt (Cmd.LetsEncryptDomain cmd)
                          (Cmd.LetsEncryptEmail cmd)
                          (Cmd.LetsEncryptCache cmd)).1;
                     registered := M8SServer srv |}])
     ∧ ∃ err, (exec (Cmd.run cmd) w).2 = Returned err).
Proof.
  intros Hn. unfold Cmd.run in *.
  destruct (run_shapes Cmd.getLetsEncrypt cmd w)
    as [(Hn' & _)
       |[(_ & Hc & Hk & [(msg' & Hl & _)|(Hl & _)])
        |(_ & Hck & Hl & [(msg' & Ha & _)|(_ & Hs & Ho)])]];
    cbv zeta in *.
  - contradiction.
  - split; [split; [done | by eexists]|]. intros [?|?]; contradiction.
  - split; [split; [done | by eexists]|]. intros [?|?]; contradiction.
  - discriminate Ha.
  - split; [|auto]. rewrite Hl. split.
    + intros [err ?]. discriminate.
    + intros [? ?]. destruct Hck; contradiction.
Qed.

Lemma static_variant_iff_both_paths_witness :
  static_loads (exec (Cmd.run (with_tls "tls.crt" "" default_cmd)) calm).1 = []
  ∧ (∃ err, static_loads
              (exec (Cmd.run (with_tls "tls.crt" "tls.key" default_cmd)) calm).1
            = [("tls.crt", "tls.key", err)]).
Proof.
  split.
  - apply (static_variant_iff_both_paths
             (with_tls "tls.crt" "" default_cmd) calm).
    + vm_compute. reflexivity.
    + right. reflexivity.
  - apply (static_variant_iff_both_paths
             (with_tls "tls.crt" "tls.key" default_cmd) calm).
    + vm_compute. reflexivity.
    + split; discriminate.
Defined.

(** ** The cache claim constructor *)

Section Claim.

Context {Quantity : Type}.
Variable ParseQuantity : string → Quantity * error.
Variable input : env.PersistentVolumeClaimInput.

(** A quantity the library cannot parse makes the constructor panic. *)
Lemma PersistentVolumeClaim_panics (e : string) :
  (ParseQuantity (env.Storage input)).2 = Some e →
  ∃ v, env.PersistentVolumeClaim ParseQuantity input = Panicked v.
Proof.
  unfold env.PersistentVolumeClaim, env.MustParse.
  destruct (ParseQuantity (env.Storage input)) as [q [e'|]]; cbn;
    [by eexists | discriminate].
Qed.

End Claim.

(** C8: the claim [PersistentVolumeClaim] produces has the access modes
    [[ReadWriteMany]], one storage request which is the quantity the
    input's [Storage] denotes, the input's namespace and name, and the
    storage-class annotation "cache". Such a claim is produced for every
    input whose [Storage] the library parses. *)
Theorem PersistentVolumeClaim_is_shared_cache_claim {Quantity : Type}
    (ParseQuantity : string → Quantity * error)
    (input : env.PersistentVolumeClaimInput) :
  (∀ pvc,
     env.PersistentVolumeClaim ParseQuantity input = Returned pvc →
     env.AccessModes (env.Spec pvc) = [env.ReadWriteMany]
     ∧ env.Requests (env.Resources (env.Spec pvc))
       = {[ env.ResourceStorage := (ParseQuantity (env.Storage input)).1 ]}
     ∧ env.meta_Namespace (env.Meta pvc) = env.Namespace input
     ∧ env.meta_Name (env.Meta pvc) = env.Name input
     ∧ env.Annotations (env.Meta pvc)
         !! "volume.beta.kubernetes.io/storage-class" = Some "cache")
  ∧ ((ParseQuantity (env.Storage input)).2 = None →
     ∃ pvc, env.PersistentVolumeClaim ParseQuantity input = Returned pvc).
Proof.
  unfold env.PersistentVolumeClaim, env.MustParse.
  destruct (ParseQuantity (env.Storage input)) as [q [e|]]; cbn.
  - split; [intros pvc [=] | intros [=]].
  - split; [|by eexists]. intros pvc [= <-]. cbn.
    repeat split.
Qed.

Lemma PersistentVolumeClaim_is_shared_cache_claim_witness :
  ∃ pvc,
    env.PersistentVolumeClaim env.parse_bytes
      {| env.Namespace := "default"; env.Name := "cache";
         env.Storage := "100Gi" |} = Returned pvc
    ∧ env.AccessModes (env.Spec pvc) = [env.ReadWriteMany]
    ∧ env.Requests (env.Resources (env.Spec pvc))
      = {[ env.ResourceStorage := 100 * 2 ^ 30 ]}.
Proof.
  pose (input := {| env.Namespace := "default"; env.Name := "cache";
                    env.Storage := "100Gi" |}).
  destruct (PersistentVolumeClaim_is_shared_cache_claim
              env.parse_bytes input) as [Hshape Hsome].
  destruct Hsome as [pvc Hpvc]; [reflexivity|].
  exists pvc. split; [exact Hpvc|].
  destruct (Hshape pvc Hpvc) as (Hm & Hr & _).
  split; [exact Hm | exact Hr].
Defined.

(** ** The Expiry Metadata contract *)

Import Orchestrator.

Section Labels.

Import Expiry.

Lemma to_uint_not_Nil (n : N) : N.to_uint n ≠ Decimal.Nil.
Proof.
  destruct n as [|p]; [discriminate|].
  apply DecimalPos.Unsigned.to_uint_nonnil.
Qed.

Lemma parse_count_render_count (n : N) :
  parse_count (render_count n) = Some n.
Proof.
  unfold parse_count, render_count.
  rewrite NilZero.usu by apply to_uint_not_Nil.
  cbn. f_equal. apply DecimalN.Unsigned.of_to.
Qed.

Lemma split_last_snoc (s : string) (u : ascii) :
  split_last (s +:+ String u EmptyString) = Some (s, u).
Proof.
  induction s as [|c s IH]; [reflexivity|].
  simpl. by rewrite IH.
Qed.

Lemma parse_ttl_render_ttl (d : N) : parse_ttl (render_ttl d) = Some d.
Proof.
  unfold render_ttl, parse_ttl.
  repeat case_decide.
  all: change "h" with (String "h"%char EmptyString);
       change "m" with (String "m"%char EmptyString);
       change "s" with (String "s"%char EmptyString).
  all: rewrite split_last_snoc; cbn [mbind option_bind];
       rewrite parse_count_render_count; cbn [mbind option_bind].
  all: match goal with
       | |- context [unit_seconds ?u] =>
           let k := eval vm_compute in (unit_seconds u) in
           change (unit_seconds u) with k
       end; cbn [mbind option_bind]; f_equal.
  - pose proof (N.div_mod d 3600 ltac:(discriminate)). lia.
  - pose proof (N.div_mod d 60 ltac:(discriminate)). lia.
  - lia.
Qed.

Lemma stamp_createdAt (m : Metadata) :
  stamp m !! "createdAt" = Some (render_count (createdAt m)).
Proof. reflexivity. Qed.

Lemma stamp_ttl (m : Metadata) :
  stamp m !! "ttl" = Some (render_ttl (ttl m)).
Proof. reflexivity. Qed.

Lemma stamp_owner (m : Metadata) : stamp m !! "owner" = Some (owner m).
Proof. reflexivity. Qed.

(** The sweeper reads back exactly what was stamped. *)
Lemma read_stamp (m : Metadata) : read (stamp m) = Some m.
Proof.
  unfold read.
  rewrite stamp_createdAt, stamp_ttl, stamp_owner.
  cbn [mbind option_bind]. rewrite parse_count_render_count.
  cbn [mbind option_bind]. rewrite parse_ttl_render_ttl.
  cbn [mbind option_bind]. by destruct m.
Qed.

End Labels.

(** ** Build and Destroy *)

Section Lifecycle.

Variable a : Addons.

Lemma active_lookup (s : State) (id : Identity) (e : Environment) :
  envs s !! id = Some e →
  active s id = if terminal (status e) then None else Some (status e).
Proof. unfold active. by intros ->. Qed.

Lemma set_status_lookup (id : Identity) (st : Status) (s : State) :
  envs (set_status id st s) !! id = with_status st <$> envs s !! id.
Proof. unfold set_status. cbn. apply lookup_alter_eq. Qed.

Lemma set_status_lookup_ne (id id' : Identity) (st : Status) (s : State) :
  id ≠ id' → envs (set_status id st s) !! id' = envs s !! id'.
Proof. intros Hne. unfold set_status. cbn. by apply lookup_alter_ne. Qed.

(** Composition never touches the cache claims, and a composition
    that went through has put the stamped workload in the store. *)
Lemma compose_cacheClaims req now faults c :
  cacheClaims (compose a req now faults c).1 = cacheClaims c.
Proof.
  unfold compose, create.
  repeat (case_match; cbn; try done).
Qed.

Lemma compose_workload req now faults c :
  (compose a req now faults c).2 = true →
  workloads (compose a req now faults c).1 !! req_identity req
  = Some (stamped_workload req now).
Proof.
  unfold compose, create.
  repeat (case_match; cbn; try done); intros _; simplify_eq;
    apply lookup_insert_eq.
Qed.

Lemma compose_workload_ne req now faults c id' :
  id' ≠ req_identity req →
  workloads (compose a req now faults c).1 !! id' = workloads c !! id'.
Proof.
  intros Hne. unfold compose, create.
  repeat (case_match; cbn; try done); simplify_eq;
    by apply lookup_insert_ne.
Qed.

Lemma Build_fresh req now faults s :
  active s (req_identity req) = None →
  Build a req now faults s = provision a req now faults (enter req now s).
Proof. unfold Build. by intros ->. Qed.

(** After a Build the Environment is active, with the status the
    call returned. *)
Lemma Build_leaves_active req now faults s :
  active (Build a req now faults s).2 (req_identity req)
  = Some (Build a req now faults s).1.
Proof.
  unfold Build.
  destruct (active s (req_identity req)) as [st|] eqn:Hact; [done|].
  unfold provision.
  destruct (compose a req now faults (cluster (enter req now s)))
    as [c ok].
  cbn [fst snd]. unfold active.
  rewrite set_status_lookup. cbn [envs].
  unfold enter. rewrite set_status_lookup. cbn [envs].
  rewrite lookup_insert_eq. cbn. by destruct ok.
Qed.

End Lifecycle.

(** C1: a Build for an identity that already has an active
    (non-terminal) Environment returns that Environment's status, as a
    status and not as an error, and changes nothing: no second workload
    is created. Build is idempotent for its caller: repeating a Build for
    the same identity, with whatever image or ttl, returns the status of
    the first call and leaves the state that call left. *)
Theorem Build_of_active_identity_returns_existing_status (a : Addons) :
  (∀ (req : BuildRequest) (now : N) (faults : Step → bool)
     (s : State) (e : Environment),
     envs s !! req_identity req = Some e →
     terminal (status e) = false →
     Build a req now faults s = (status e, s)
     ∧ workloads (cluster (Build a req now faults s).2)
       = workloads (cluster s))
  ∧ (∀ (req req' : BuildRequest) (now now' : N)
       (faults faults' : Step → bool) (s : State),
       req_identity req' = req_identity req →
       Build a req' now' faults' (Build a req now faults s).2
       = Build a req now faults s).
Proof.
  split.
  - intros req now faults s e He Hterm.
    assert (Hb : Build a req now faults s = (status e, s)).
    { unfold Build. by rewrite (active_lookup _ _ _ He), Hterm. }
    by rewrite Hb.
  - intros req req' now now' faults faults' s Hid.
    pose proof (Build_leaves_active a req now faults s) as Hact.
    destruct (Build a req now faults s) as [st s1]. cbn [fst snd] in *.
    unfold Build. by rewrite Hid, Hact.
Qed.

Lemma Build_of_active_identity_returns_existing_status_witness :
  Build addons_80_2222 pr42 1700000060 no_faults
    (enter pr42 1700000000 (started "default" "100Gi"))
  = (Provisioning, enter pr42 1700000000 (started "default" "100Gi")).
Proof.
  destruct (Build_of_active_identity_returns_existing_status addons_80_2222)
    as [Hactive _].
  destruct (Hactive pr42 1700000060%N no_faults
              (enter pr42 1700000000 (started "default" "100Gi"))
              {| identity := req_identity pr42;
                 requestedAt := 1700000000;
                 ttl := 86400;
                 registryCredential := "registry-token";
                 desiredImage := "app:1.0";
                 status := Provisioning |}) as [H _].
  - vm_compute. reflexivity.
  - reflexivity.
  - exact H.
Defined.

Section Invariant.

Variable a : Addons.

Lemma Build_stamped req now faults s :
  stamped s → stamped (Build a req now faults s).2.
Proof.
  intros Hs. unfold Build.
  destruct (active s (req_identity req)) eqn:Hact; [done|].
  unfold provision.
  pose proof (compose_workload a req now faults (cluster (enter req now s)))
    as Hw.
  pose proof (compose_workload_ne a req now faults
                (cluster (enter req now s))) as Hne.
  destruct (compose a req now faults (cluster (enter req now s))) as [c ok].
  cbn [fst snd] in *. intros id e He Hready.
  destruct (decide (id = req_identity req)) as [->|Hid].
  - rewrite set_status_lookup in He. cbn [envs] in He.
    unfold enter in He. rewrite set_status_lookup in He. cbn [envs] in He.
    rewrite lookup_insert_eq in He. cbn in He.
    injection He as <-. cbn in Hready.
    destruct ok; [|discriminate].
    exists (stamped_workload req now). split; [by apply Hw|].
    apply read_stamp.
  - rewrite set_status_lookup_ne in He by done. cbn [envs] in He.
    unfold enter in He. rewrite set_status_lookup_ne in He by done.
    cbn [envs] in He. rewrite lookup_insert_ne in He by done.
    cbn [cluster]. rewrite Hne by done. by apply Hs.
Qed.

Lemma Destroy_stamped id s : stamped s → stamped (Destroy id s).2.
Proof.
  intros Hs. unfold Destroy.
  destruct (active s id) eqn:Hact; [|done].
  cbn [snd]. intros id' e He Hready.
  destruct (decide (id' = id)) as [->|Hid].
  - rewrite !set_status_lookup in He. cbn [envs] in He.
    destruct (envs s !! id); [|discriminate].
    injection He as <-. discriminate.
  - rewrite !set_status_lookup_ne in He by done. cbn [envs] in He.
    cbn. rewrite lookup_delete_ne by done. by apply Hs.
Qed.

Lemma run_stamped ops s : stamped s → stamped (run a ops s).2.
Proof.
  revert s. induction ops as [|op ops IH]; intros s Hs; [done|].
  cbn [run].
  assert (Hstep : stamped (step a op s).2).
  { destruct op as [req now faults|id]; cbn [step].
    - pose proof (Build_stamped req now faults s Hs) as H.
      by destruct (Build a req now faults s).
    - pose proof (Destroy_stamped id s Hs) as H.
      by destruct (Destroy id s). }
  destruct (step a op s) as [r s1]. cbn [snd] in Hstep.
  specialize (IH s1 Hstep). by destruct (run a ops s1).
Qed.

Lemma started_stamped ns size : stamped (started ns size).
Proof.
  intros id e He. unfold started in He. cbn [envs] in He.
  by rewrite lookup_empty in He.
Qed.

End Invariant.

(** C2: when a Build provisions an Environment and ends in [Ready], the
    store holds the Environment's workload, the workload carries a
    createdAt and a ttl label, the sweeper can parse them, and what it
    reads is the time of the call and the ttl the call asked for. And
    whatever Build and Destroy calls the service has served since it
    started, the workload of every [Ready] Environment carries the
    metadata of the Build that made it. *)
Theorem Ready_workload_carries_requested_expiry (a : Addons) :
  (∀ (req : BuildRequest) (now : N) (faults : Step → bool) (s : State),
     active s (req_identity req) = None →
     (Build a req now faults s).1 = Ready →
     ∃ w,
       workloads (cluster (Build a req now faults s).2) !! req_identity req
       = Some w
       ∧ labels w !! "createdAt" = Some (Expiry.render_count now)
       ∧ labels w !! "ttl" = Some (Expiry.render_ttl (req_ttl req))
       ∧ (labels w !! "createdAt" ≫= Expiry.parse_count) = Some now
       ∧ (labels w !! "ttl" ≫= Expiry.parse_ttl) = Some (req_ttl req)
       ∧ Expiry.read (labels w)
         = Some {| Expiry.createdAt := now;
                   Expiry.ttl := req_ttl req;
                   Expiry.owner := name (req_identity req) |})
  ∧ (∀ (ops : list Op) (ns size : string),
       stamped (run a ops (started ns size)).2).
Proof.
  split; [|intros ops ns size; apply run_stamped, started_stamped].
  intros req now faults s Hact.
  rewrite (Build_fresh _ _ _ _ _ Hact). unfold provision.
  pose proof (compose_workload a req now faults (cluster (enter req now s)))
    as Hw.
  destruct (compose a req now faults (cluster (enter req now s))) as [c ok].
  cbn [fst snd] in *. destruct ok; [intros _ | discriminate].
  exists (stamped_workload req now). split; [by apply Hw|].
  unfold stamped_workload. cbn [labels].
  rewrite stamp_createdAt, stamp_ttl. cbn [mbind option_bind].
  rewrite parse_count_render_count, parse_ttl_render_ttl, read_stamp.
  done.
Qed.

Lemma Ready_workload_carries_requested_expiry_witness :
  ∃ w,
    workloads
      (cluster (Build addons_80_2222 pr42 1700000000 no_faults
                  (started "default" "100Gi")).2) !! req_identity pr42
    = Some w
    ∧ labels w !! "ttl" = Some "24h"
    ∧ (labels w !! "ttl" ≫= Expiry.parse_ttl) = Some 86400%N.
Proof.
  destruct (Ready_workload_carries_requested_expiry addons_80_2222)
    as [Hbuild _].
  destruct (Hbuild pr42 1700000000%N no_faults (started "default" "100Gi"))
    as (w & Hw & _ & Httl & _ & Hparse & _).
  - reflexivity.
  - vm_compute. reflexivity.
  - exists w. split; [exact Hw|]. split; [exact Httl | exact Hparse].
Defined.

(** C3: Destroy is idempotent. The first Destroy of an existing
    Environment answers [Destroyed]; a second Destroy of the same
    identity answers [NotFound], an ordinary answer, and changes
    nothing. *)
Theorem Destroy_then_Destroy
    (id : Identity) (s : State) (e : Environment) :
  envs s !! id = Some e →
  terminal (status e) = false →
  (Destroy id s).1 = Ack.Destroyed
  ∧ Destroy id (Destroy id s).2 = (Ack.NotFound, (Destroy id s).2).
Proof.
  intros He Hterm. unfold Destroy at 1 3 4.
  rewrite (active_lookup _ _ _ He), Hterm. cbn [fst snd].
  split; [done|]. unfold Destroy, active.
  rewrite !set_status_lookup. cbn [envs]. by rewrite He.
Qed.

Lemma Destroy_then_Destroy_witness :
  let s := (Build addons_80_2222 pr42 1700000000 no_faults
              (started "default" "100Gi")).2 in
  (Destroy (req_identity pr42) s).1 = Ack.Destroyed
  ∧ (Destroy (req_identity pr42) (Destroy (req_identity pr42) s).2).1
    = Ack.NotFound.
Proof.
  cbv zeta. destruct (Destroy_then_Destroy (req_identity pr42)
              (Build addons_80_2222 pr42 1700000000 no_faults
                 (started "default" "100Gi")).2
              {| identity := req_identity pr42;
                 requestedAt := 1700000000;
                 ttl := 86400;
                 registryCredential := "registry-token";
                 desiredImage := "app:1.0";
                 status := Ready |}) as [H1 H2].
  - vm_compute. reflexivity.
  - reflexivity.
  - split; [exact H1|]. rewrite H2. reflexivity.
Defined.

Section Frame.

Variable a : Addons.

Lemma Build_cacheClaims req now faults s :
  cacheClaims (cluster (Build a req now faults s).2)
  = cacheClaims (cluster s).
Proof.
  unfold Build. destruct (active s (req_identity req)); [done|].
  unfold provision.
  pose proof (compose_cacheClaims a req now faults
                (cluster (enter req now s))) as Hc.
  destruct (compose a req now faults (cluster (enter req now s)))
    as [c ok].
  cbn [fst snd] in *. exact Hc.
Qed.

Lemma Destroy_cacheClaims id s :
  cacheClaims (cluster (Destroy id s).2) = cacheClaims (cluster s).
Proof. unfold Destroy. by destruct (active s id). Qed.

Lemma step_cacheClaims op s :
  cacheClaims (cluster (step a op s).2) = cacheClaims (cluster s).
Proof.
  destruct op as [req now faults|id]; cbn [step].
  - pose proof (Build_cacheClaims req now faults s) as H.
    by destruct (Build a req now faults s).
  - pose proof (Destroy_cacheClaims id s) as H.
    by destruct (Destroy id s).
Qed.

Lemma run_cacheClaims ops s :
  cacheClaims (cluster (run a ops s).2) = cacheClaims (cluster s).
Proof.
  revert s. induction ops as [|op ops IH]; intros s; [done|].
  cbn [run].
  pose proof (step_cacheClaims op s) as Hstep.
  destruct (step a op s) as [r s1]. cbn [snd] in Hstep.
  specialize (IH s1). destruct (run a ops s1) as [rs s2].
  cbn [snd] in *. congruence.
Qed.

(** Destroy deletes under the identity and nowhere else. *)
Lemma Destroy_frame id id' s :
  id' ≠ id →
  workloads (cluster (Destroy id s).2) !! id'
  = workloads (cluster s) !! id'
  ∧ routes (cluster (Destroy id s).2) !! id' = routes (cluster s) !! id'
  ∧ secrets (cluster (Destroy id s).2) !! id'
    = secrets (cluster s) !! id'.
Proof.
  intros Hne. unfold Destroy. destruct (active s id); [|done].
  cbn. by rewrite !lookup_delete_ne.
Qed.

Lemma Destroy_releases id s :
  (Destroy id s).1 = Ack.Destroyed →
  workloads (cluster (Destroy id s).2) !! id = None
  ∧ routes (cluster (Destroy id s).2) !! id = None
  ∧ secrets (cluster (Destroy id s).2) !! id = None.
Proof.
  unfold Destroy. destruct (active s id); [|discriminate].
  intros _. cbn. by rewrite !lookup_delete_eq.
Qed.

(** Ensuring the cache volume keeps every claim that is there. *)
Lemma EnsureCacheVolume_keeps ns size ns' v c :
  cacheClaims c !! ns' = Some v →
  cacheClaims (EnsureCacheVolume ns size c) !! ns' = Some v.
Proof.
  intros Hv. unfold EnsureCacheVolume.
  destruct (cacheClaims c !! ns) eqn:Hns; [done|].
  cbn. rewrite lookup_insert_ne; [done|]. congruence.
Qed.

End Frame.

(** C4: this service never deletes or modifies the shared cache claim.
    Whatever sequence of Build and Destroy calls is served, the cache
    claims of the store are afterwards what they were before; so they are
    after a single Build. A Destroy that answers [Destroyed] has removed
    the workload, the route and the secret of its identity, and a Destroy
    leaves the workloads, routes and secrets of every other identity, and
    the cache claims, as they were. Ensuring the cache volume again keeps
    the claim that exists. *)
Theorem cache_claim_is_never_touched (a : Addons) :
  (∀ ops s, cacheClaims (cluster (run a ops s).2) = cacheClaims (cluster s))
  ∧ (∀ req now faults s,
       cacheClaims (cluster (Build a req now faults s).2)
       = cacheClaims (cluster s))
  ∧ (∀ id s,
       cacheClaims (cluster (Destroy id s).2) = cacheClaims (cluster s)
       ∧ ((Destroy id s).1 = Ack.Destroyed →
          workloads (cluster (Destroy id s).2) !! id = None
          ∧ routes (cluster (Destroy id s).2) !! id = None
          ∧ secrets (cluster (Destroy id s).2) !! id = None)
       ∧ ∀ id', id' ≠ id →
           workloads (cluster (Destroy id s).2) !! id'
           = workloads (cluster s) !! id'
           ∧ routes (cluster (Destroy id s).2) !! id'
             = routes (cluster s) !! id'
           ∧ secrets (cluster (Destroy id s).2) !! id'
             = secrets (cluster s) !! id')
  ∧ (∀ ns size ns' v c,
       cacheClaims c !! ns' = Some v →
       cacheClaims (EnsureCacheVolume ns size c) !! ns' = Some v).
Proof.
  split; [apply run_cacheClaims|]. split; [apply Build_cacheClaims|].
  split; [|apply EnsureCacheVolume_keeps].
  intros id s. split; [apply Destroy_cacheClaims|].
  split; [apply Destroy_releases|]. intros id'. apply Destroy_frame.
Qed.

Lemma cache_claim_is_never_touched_witness :
  let s := (run addons_80_2222
              [OpBuild pr42 1700000000 no_faults;
               OpBuild pr9 1700000030 no_faults] 
              (started "default" "100Gi")).2 in
  cacheClaims (cluster (Destroy (req_identity pr42) s).2)
  = cacheClaims (cluster (started "default" "100Gi"))
  ∧ workloads (cluster (Destroy (req_identity pr42) s).2) !! req_identity pr42
    = None
  ∧ workloads (cluster (Destroy (req_identity pr42) s).2) !! req_identity pr9
    = workloads (cluster s) !! req_identity pr9.
Proof.
  cbv zeta.
  destruct (cache_claim_is_never_touched addons_80_2222)
    as (Hrun & _ & Hdestroy & _).
  set (s := (run addons_80_2222 _ _).2).
  destruct (Hdestroy (req_identity pr42) s) as (Hc & Hgone & Hframe).
  split; [by rewrite Hc; apply Hrun|]. split.
  - apply Hgone. vm_compute. reflexivity.
  - apply (Hframe (req_identity pr9)). vm_compute. discriminate.
Defined.

(** * Further properties of the start-up code *)

(** ** The order of the calls *)

(** [main] makes its calls in one fixed order: it binds the port, loads
    the configuration, builds the clientset, announces and installs each
    addon, loads the static files when both paths are given, and serves.
    Whatever the surroundings answer, the calls made are a prefix of that
    order, and [main] returns exactly when it went through all of it. *)
Theorem main_call_order (f : PrApi.Flags) (w : World) :
  let static := bool_decide (PrApi.cliCert f ≠ "")
                && bool_decide (PrApi.cliKey f ≠ "") in
  kinds (exec (PrApi.main f) w).1 `prefix_of` main_order static
  ∧ ((exec (PrApi.main f) w).2 = Returned tt
     ↔ kinds (exec (PrApi.main f) w).1 = main_order static).
Proof.
  cbv zeta. unfold PrApi.main, main_order.
  answers w.
  all: repeat case_bool_decide; cbn [andb]; proc_unfold; repeat answer w.
  all: cbn; split; [by eexists | split; intros [=]; reflexivity].
Qed.

(** [run] makes its calls in one fixed order: it starts the metrics
    goroutine, binds the port, loads the configuration, builds the
    clientset and the server, loads the static files when both paths are
    given, and serves. The calls made are always a prefix of that order,
    and [run] returns exactly when it went through all of it. *)
Theorem run_call_order (cmd : Cmd.cmdServer) (w : World) :
  let static := bool_decide (Cmd.TLSCert cmd ≠ "")
                && bool_decide (Cmd.TLSKey cmd ≠ "") in
  kinds (exec (Cmd.run cmd) w).1 `prefix_of` run_order static
  ∧ ((∃ err, (exec (Cmd.run cmd) w).2 = Returned err)
     ↔ kinds (exec (Cmd.run cmd) w).1 = run_order static).
Proof.
  cbv zeta. unfold Cmd.run, Cmd.run_using, Cmd.getLetsEncrypt, run_order.
  answers w.
  all: repeat case_bool_decide; cbn [andb]; proc_unfold; repeat answer w.
  all: cbn; split; [by eexists|].
  all: split; [intros [err [=]] | intros [=]]; eauto.
Qed.

(** ** Failures before the cluster is reached *)

(** Closes a goal whose hypothesis puts an element in a list that is
    known in full. *)
Ltac in_known_list H :=
  apply list_elem_of_In in H; cbn in H; intuition (try congruence).

(** When binding the port, loading the in-cluster configuration or
    building the clientset fails, [main] panics with that error: no addon
    creation is attempted, no file is loaded and nothing is served. *)
Theorem main_prelude_failure_installs_nothing
    (f : PrApi.Flags) (w : World) (msg : string) :
  Some msg ∈ prelude_errors (exec (PrApi.main f) w).1 →
  (exec (PrApi.main f) w).2 = Panicked msg
  ∧ addon_calls (exec (PrApi.main f) w).1 = []
  ∧ static_loads (exec (PrApi.main f) w).1 = []
  ∧ serve_calls (exec (PrApi.main f) w).1 = [].
Proof.
  unfold PrApi.main.
  answers w.
  all: repeat case_bool_decide; cbn [andb]; proc_unfold; repeat answer w.
  all: cbn; intros Hin; in_known_list Hin.
Qed.

Lemma main_prelude_failure_installs_nothing_witness :
  (exec (PrApi.main default_flags) (outside_cluster "not in a cluster")).2
  = Panicked "not in a cluster"
  ∧ addon_calls
      (exec (PrApi.main default_flags) (outside_cluster "not in a cluster")).1
    = [].
Proof.
  destruct (main_prelude_failure_installs_nothing default_flags
              (outside_cluster "not in a cluster") "not in a cluster")
    as (Ho & Ha & _).
  - vm_compute. apply list_elem_of_further, list_elem_of_here.
  - split; [exact Ho | exact Ha].
Defined.

(** When binding the port, loading the in-cluster configuration,
    building the clientset or building the server fails, [run] panics
    with that error: no file is loaded and nothing is served. *)
Theorem run_prelude_failure_serves_nothing
    (cmd : Cmd.cmdServer) (w : World) (msg : string) :
  Some msg ∈ prelude_errors (exec (Cmd.run cmd) w).1
  ∨ Some msg ∈ new_server_errors (exec (Cmd.run cmd) w).1 →
  (exec (Cmd.run cmd) w).2 = Panicked msg
  ∧ static_loads (exec (Cmd.run cmd) w).1 = []
  ∧ serve_calls (exec (Cmd.run cmd) w).1 = [].
Proof.
  unfold Cmd.run, Cmd.run_using, Cmd.getLetsEncrypt.
  answers w.
  all: repeat case_bool_decide; cbn [andb]; proc_unfold; repeat answer w.
  all: cbn; intros [Hin|Hin]; in_known_list Hin.
Qed.

Lemma run_prelude_failure_serves_nothing_witness :
  (exec (Cmd.run default_cmd) (outside_cluster "not in a cluster")).2
  = Panicked "not in a cluster"
  ∧ serve_calls
      (exec (Cmd.run default_cmd) (outside_cluster "not in a cluster")).1
    = [].
Proof.
  destruct (run_prelude_failure_serves_nothing default_cmd
              (outside_cluster "not in a cluster") "not in a cluster")
    as (Ho & _ & Hs).
  - left. vm_compute. apply list_elem_of_further, list_elem_of_here.
  - split; [exact Ho | exact Hs].
Defined.

(** ** What the calls are given *)

(** Every addon [main] creates is created in the namespace of the
    [--namespace] flag, with the image, version and port flags of that
    addon, through the clientset that was built without error for the
    configuration loaded from the cluster. *)
Theorem main_addon_calls_follow_flags
    (f : PrApi.Flags) (w : World) (ac : AddonCall) :
  ac ∈ addon_calls (exec (PrApi.main f) w).1 →
  ac_namespace ac = PrApi.cliNamespace f
  ∧ (ac_image ac, ac_version ac, ac_port ac)
    = match ac_addon ac with
      | Traefik => (PrApi.cliTraefikImage f, PrApi.cliTraefikVersion f,
                    Some (PrApi.cliTraefikPort f))
      | SSHServer => (PrApi.cliSSHImage f, PrApi.cliSSHVersion f,
                      Some (PrApi.cliSSHPort f))
      | BlackDeath => (PrApi.cliBlackDeathImage f,
                       PrApi.cliBlackDeathVersion f, None)
      end
  ∧ ∃ cfg,
      configs_loaded (exec (PrApi.main f) w).1 = [(cfg, None)]
      ∧ clients_built (exec (PrApi.main f) w).1
        = [(cfg, ac_client ac, None)].
Proof.
  unfold PrApi.main.
  answers w.
  all: repeat case_bool_decide; cbn [andb]; proc_unfold; repeat answer w.
  all: cbn; intros Hin; apply list_elem_of_In in Hin; cbn in Hin.
  all: repeat match goal with H' : _ ∨ _ |- _ => destruct H' end;
       try contradiction; subst ac; cbn; eauto.
Qed.

Lemma main_addon_calls_follow_flags_witness :
  ∃ cfg,
    configs_loaded (exec (PrApi.main default_flags) calm).1 = [(cfg, None)]
    ∧ clients_built (exec (PrApi.main default_flags) calm).1
      = [(cfg, mkClientset (mkRestConfig "https://10.0.0.1:443"), None)].
Proof.
  pose (ac := {| ac_addon := SSHServer;
                 ac_client := mkClientset (mkRestConfig "https://10.0.0.1:443");
                 ac_namespace := "default";
                 ac_image := "previousnext/k8s-ssh-server";
                 ac_version := "0.0.5";
                 ac_port := Some 2222 |}).
  destruct (main_addon_calls_follow_flags default_flags calm ac)
    as (_ & _ & H).
  - vm_compute. apply list_elem_of_further, list_elem_of_here.
  - exact H.
Defined.

(** What [server.New] is called with comes from the command's fields,
    the registry fields one by one, and the clientset and configuration
    it is given are the ones obtained just before, without error. *)
Theorem run_server_New_follows_command
    (cmd : Cmd.cmdServer) (w : World) (c : NewServerCall) :
  c ∈ new_server_calls (exec (Cmd.run cmd) w).1 →
  (ns_token c, ns_namespace c, ns_sshService c, ns_fsSize c, ns_apachePort c)
  = (Cmd.Token cmd, Cmd.Namespace cmd, Cmd.SSHService cmd,
     Cmd.FilesystemSize cmd, Cmd.PrometheusApache cmd)
  ∧ ns_registry c
    = {| Registry := Cmd.DockerCfgRegistry cmd;
         Username := Cmd.DockerCfgUsername cmd;
         Password := Cmd.DockerCfgPassword cmd;
         RegistryEmail := Cmd.DockerCfgEmail cmd;
         Auth := Cmd.DockerCfgAuth cmd |}
  ∧ configs_loaded (exec (Cmd.run cmd) w).1 = [(ns_config c, None)]
  ∧ clients_built (exec (Cmd.run cmd) w).1
    = [(ns_config c, ns_client c, None)].
Proof.
  unfold Cmd.run, Cmd.run_using, Cmd.getLetsEncrypt.
  answers w.
  all: repeat case_bool_decide; cbn [andb]; proc_unfold; repeat answer w.
  all: cbn; intros Hin; apply list_elem_of_In in Hin; cbn in Hin.
  all: repeat match goal with H' : _ ∨ _ |- _ => destruct H' end;
       try contradiction; subst c; cbn; eauto.
Qed.

Lemma run_server_New_follows_command_witness :
  clients_built (exec (Cmd.run default_cmd) calm).1
  = [(mkRestConfig "https://10.0.0.1:443",
      mkClientset (mkRestConfig "https://10.0.0.1:443"), None)].
Proof.
  pose (c := {| ns_client := mkClientset (mkRestConfig "https://10.0.0.1:443");
                ns_config := mkRestConfig "https://10.0.0.1:443";
                ns_token := "";
                ns_namespace := "default";
                ns_sshService := "ssh-server";
                ns_fsSize := "100Gi";
                ns_apachePort := 9117;
                ns_registry := {| Registry := ""; Username := "";
                                  Password := ""; RegistryEmail := "";
                                  Auth := "" |};
                ns_server := mkM8sServer 1;
                ns_error := None |}).
  destruct (run_server_New_follows_command default_cmd calm c)
    as (_ & _ & _ & H).
  - vm_compute. apply list_elem_of_here.
  - exact H.
Defined.

(** The metrics goroutine is what [run] starts first, on the command's
    metrics port and path: it is started once in every run, also in one
    that panics before the port of the service is bound. *)
Theorem run_always_starts_metrics (cmd : Cmd.cmdServer) (w : World) :
  metrics_starts (exec (Cmd.run cmd) w).1
  = [(Cmd.PrometheusPort cmd, Cmd.PrometheusPath cmd)]
  ∧ ∃ rest, kinds (exec (Cmd.run cmd) w).1
            = KLog "Starting Prometheus Endpoint" :: KGo :: rest.
Proof.
  unfold Cmd.run, Cmd.run_using, Cmd.getLetsEncrypt.
  answers w.
  all: repeat case_bool_decide; cbn [andb]; proc_unfold; repeat answer w.
  all: cbn; split; [reflexivity | by eexists].
Qed.

(** ** The listen address *)

Lemma port_of_address_fmt_d (port : Z) :
  port_of_address (":" +:+ fmt_d port) = Some port.
Proof.
  change (":" +:+ fmt_d port) with (String ":" (fmt_d port)).
  unfold port_of_address, fmt_d.
  rewrite NilZero.isi.
  - cbn. f_equal. apply DecimalZ.of_to.
  - destruct port; [discriminate | | discriminate].
    intros [= H]. by apply DecimalPos.Unsigned.to_uint_nonnil in H.
  - destruct port; [discriminate | discriminate |].
    intros [= H]. by apply DecimalPos.Unsigned.to_uint_nonnil in H.
Qed.

(** Both binaries bind one TCP port, on every interface: the address is
    a colon followed by the port in decimal, which reads back as the port
    that was configured, whatever number that is. *)
Theorem listen_address_is_the_port (w : World) :
  (∀ (f : PrApi.Flags) l,
     l ∈ listens (exec (PrApi.main f) w).1 →
     ∃ lis err,
       l = ("tcp", ":" +:+ fmt_d (PrApi.cliPort f), lis, err)
       ∧ port_of_address (":" +:+ fmt_d (PrApi.cliPort f))
         = Some (PrApi.cliPort f))
  ∧ (∀ (cmd : Cmd.cmdServer) l,
       l ∈ listens (exec (Cmd.run cmd) w).1 →
       ∃ lis err,
         l = ("tcp", ":" +:+ fmt_d (Cmd.Port cmd), lis, err)
         ∧ port_of_address (":" +:+ fmt_d (Cmd.Port cmd))
           = Some (Cmd.Port cmd)).
Proof.
  split.
  - intros f l. unfold PrApi.main.
    answers w.
    all: repeat case_bool_decide; cbn [andb]; proc_unfold; repeat answer w.
    all: cbn; intros Hin; apply list_elem_of_In in Hin; cbn in Hin.
    all: destruct Hin as [<-|[]]; do 2 eexists;
         split; [reflexivity | apply port_of_address_fmt_d].
  - intros cmd l. unfold Cmd.run, Cmd.run_using, Cmd.getLetsEncrypt.
    answers w.
    all: repeat case_bool_decide; cbn [andb]; proc_unfold; repeat answer w.
    all: cbn; intros Hin; apply list_elem_of_In in Hin; cbn in Hin.
    all: destruct Hin as [<-|[]]; do 2 eexists;
         split; [reflexivity | apply port_of_address_fmt_d].
Qed.

Lemma listen_address_is_the_port_witness :
  ∃ lis (err : error),
    ("tcp", ":443", mkListener 3, @None string)
    = ("tcp", ":" +:+ fmt_d (Cmd.Port default_cmd), lis, err)
    ∧ port_of_address (":" +:+ fmt_d (Cmd.Port default_cmd)) = Some 443.
Proof.
  destruct (listen_address_is_the_port calm) as [_ Hrun].
  apply (Hrun default_cmd ("tcp", ":443", mkListener 3, @None string)).
  vm_compute. apply list_elem_of_here.
Defined.

(** ** Credentials in the older binary *)

(** [main] chooses its credentials as [run] does. Once the three addons
    are installed, the static files are loaded if and only if both the
    certificate and the key flag are non-empty; with either one empty no
    file is loaded, and [main] serves with the credentials of its Let's
    Encrypt helper and returns. *)
Theorem main_static_variant_iff_both_paths (f : PrApi.Flags) (w : World) :
  (BlackDeath, None) ∈ addon_results (exec (PrApi.main f) w).1 →
  ((∃ err, static_loads (exec (PrApi.main f) w).1
           = [(PrApi.cliCert f, PrApi.cliKey f, err)])
   ↔ PrApi.cliCert f ≠ "" ∧ PrApi.cliKey f ≠ "")
  ∧ (PrApi.cliCert f = "" ∨ PrApi.cliKey f = "" →
     static_loads (exec (PrApi.main f) w).1 = []
     ∧ (∃ srv, serving (exec (PrApi.main f) w).1
               = [{| grpc_Creds :=
                       (PrApi.getLetsEncrypt (PrApi.cliLetsEncryptDomain f)
                          (PrApi.cliLetsEncryptEmail f)
                          (PrApi.cliLetsEncryptCache f)).1;
                     registered := PRServer srv |}])
     ∧ (exec (PrApi.main f) w).2 = Returned tt).
Proof.
  unfold PrApi.main.
  answers w.
  all: repeat case_bool_decide; cbn [andb]; proc_unfold; repeat answer w.
  all: cbn; intros Hin; try (in_known_list Hin; fail); clear Hin.
  all: split; [split; [intros [err' [=]] | intros [? ?]]; eauto; tauto|].
  all: intros [?|?]; try contradiction; eauto.
Qed.

Lemma main_static_variant_iff_both_paths_witness :
  static_loads (exec (PrApi.main default_flags) calm).1 = []
  ∧ (exec (PrApi.main default_flags) calm).2 = Returned tt.
Proof.
  destruct (main_static_variant_iff_both_paths default_flags calm)
    as [_ H].
  - vm_compute. do 2 apply list_elem_of_further. apply list_elem_of_here.
  - destruct H as (Hl & _ & Ho); [left; reflexivity|].
    split; [exact Hl | exact Ho].
Defined.

(** When loading the static files returns an error, [main] panics with
    it and serves nothing; the three addons stay installed. *)
Theorem main_static_load_failure_is_fatal
    (f : PrApi.Flags) (w : World) (cf kf msg : string) :
  (cf, kf, Some msg) ∈ static_loads (exec (PrApi.main f) w).1 →
  (exec (PrApi.main f) w).2 = Panicked msg
  ∧ serve_calls (exec (PrApi.main f) w).1 = []
  ∧ addon_results (exec (PrApi.main f) w).1
    = [(Traefik, None); (SSHServer, None); (BlackDeath, None)].
Proof.
  unfold PrApi.main.
  answers w.
  all: repeat case_bool_decide; cbn [andb]; proc_unfold; repeat answer w.
  all: cbn; intros Hin; in_known_list Hin.
Qed.

Lemma main_static_load_failure_is_fatal_witness :
  (exec (PrApi.main default_flags_with_tls) (no_files "no such file")).2
  = Panicked "no such file"
  ∧ serve_calls
      (exec (PrApi.main default_flags_with_tls) (no_files "no such file")).1
    = [].
Proof.
  destruct (main_static_load_failure_is_fatal default_flags_with_tls
              (no_files "no such file") "tls.crt" "tls.key" "no such file")
    as (Ho & Hs & _).
  - vm_compute. apply list_elem_of_here.
  - split; [exact Ho | exact Hs].
Defined.

(** ** What is served *)

(** When [main] serves, it serves once: on the listener it bound, the
    server made of the clientset and the configuration it obtained, with
    the credentials the load returned or, without static files, those of
    the helper. And [main] then returns normally whatever [Serve]
    returns: the error of [Serve] is dropped. *)
Theorem main_serves_what_it_built
    (f : PrApi.Flags) (w : World) (g : GrpcServer) (lis : Listener)
    (err : error) :
  (g, lis, err) ∈ serve_calls (exec (PrApi.main f) w).1 →
  serve_calls (exec (PrApi.main f) w).1 = [(g, lis, err)]
  ∧ (exec (PrApi.main f) w).2 = Returned tt
  ∧ (∃ address, listens (exec (PrApi.main f) w).1
                = [("tcp", address, lis, None)])
  ∧ (∃ cfg cl,
       registered g = PRServer {| client := cl; config := cfg |}
       ∧ clients_built (exec (PrApi.main f) w).1 = [(cfg, cl, None)])
  ∧ (loaded_credentials (exec (PrApi.main f) w).1 = [(grpc_Creds g, None)]
     ∨ (loaded_credentials (exec (PrApi.main f) w).1 = []
        ∧ grpc_Creds g
          = (PrApi.getLetsEncrypt (PrApi.cliLetsEncryptDomain f)
               (PrApi.cliLetsEncryptEmail f)
               (PrApi.cliLetsEncryptCache f)).1)).
Proof.
  unfold PrApi.main, PrApi.getLetsEncrypt.
  answers w.
  all: repeat case_bool_decide; cbn [andb]; proc_unfold; repeat answer w.
  all: cbn; intros Hin; apply list_elem_of_In in Hin; cbn in Hin.
  all: try contradiction.
  all: destruct Hin as [Heq|[]]; simplify_eq; cbn; eauto 12.
Qed.

Lemma main_serves_what_it_built_witness :
  (exec (PrApi.main default_flags) (serve_stops "listener closed")).2
  = Returned tt.
Proof.
  pose (g := {| grpc_Creds :=
                  (PrApi.getLetsEncrypt "" "admin@previousnext.com.au"
                     "/tmp").1;
                registered :=
                  PRServer {| client :=
                                mkClientset
                                  (mkRestConfig "https://10.0.0.1:443");
                              config := mkRestConfig "https://10.0.0.1:443"
                           |} |}).
  destruct (main_serves_what_it_built default_flags
              (serve_stops "listener closed") g (mkListener 3)
              (Some "listener closed")) as (_ & Ho & _).
  - vm_compute. apply list_elem_of_here.
  - exact Ho.
Defined.

(** [run] hands back what [Serve] returns. It returns an error value
    exactly when it served, once, and then the value is the one [Serve]
    returned; what it served is the server [server.New] returned, on the
    listener it bound, with the credentials the load returned or, without
    static files, those of the helper. *)
Theorem run_returns_what_Serve_returns (cmd : Cmd.cmdServer) (w : World) :
  (∀ err, (exec (Cmd.run cmd) w).2 = Returned err
          ↔ ∃ g lis, serve_calls (exec (Cmd.run cmd) w).1 = [(g, lis, err)])
  ∧ (∀ g lis err,
       (g, lis, err) ∈ serve_calls (exec (Cmd.run cmd) w).1 →
       (∃ address, listens (exec (Cmd.run cmd) w).1
                   = [("tcp", address, lis, None)])
       ∧ (∃ c, new_server_calls (exec (Cmd.run cmd) w).1 = [c]
               ∧ ns_error c = None
               ∧ registered g = M8SServer (ns_server c))
       ∧ (loaded_credentials (exec (Cmd.run cmd) w).1
          = [(grpc_Creds g, None)]
          ∨ (loaded_credentials (exec (Cmd.run cmd) w).1 = []
             ∧ grpc_Creds g
               = (Cmd.getLetsEncrypt (Cmd.LetsEncryptDomain cmd)
                    (Cmd.LetsEncryptEmail cmd)
                    (Cmd.LetsEncryptCache cmd)).1))).
Proof.
  unfold Cmd.run, Cmd.run_using, Cmd.getLetsEncrypt.
  answers w.
  all: repeat case_bool_decide; cbn [andb]; proc_unfold; repeat answer w.
  all: cbn; split.
  all: try (intros err'; split; [intros [=] | intros (g' & lis' & [=])];
            subst; eauto; fail).
  all: intros g' lis' err' Hin; apply list_elem_of_In in Hin; cbn in Hin.
  all: try contradiction.
  all: destruct Hin as [Heq|[]]; simplify_eq; cbn; eauto 12.
Qed.

Lemma run_returns_what_Serve_returns_witness :
  (exec (Cmd.run default_cmd) (serve_stops "listener closed")).2
  = Returned (Some "listener closed").
Proof.
  destruct (run_returns_what_Serve_returns default_cmd
              (serve_stops "listener closed")) as [H _].
  apply H. vm_compute. by do 2 eexists.
Defined.

(** ** Edge behaviour of the cache claim constructor *)

Lemma append_cancel_l (prefix a b : string) :
  prefix +:+ a = prefix +:+ b → a = b.
Proof.
  induction prefix as [|c prefix IH]; cbn; [done|].
  intros [= H]. by apply IH.
Qed.

(** The constructor has no error result. For a size the library parses
    it returns a claim; for a size the library rejects it panics, and the
    panic names the rejected size and the library's error. It never
    returns a claim without knowing the size. *)
Theorem PersistentVolumeClaim_returns_or_panics {Quantity : Type}
    (ParseQuantity : string → Quantity * error)
    (input : env.PersistentVolumeClaimInput) :
  ((∃ pvc, env.PersistentVolumeClaim ParseQuantity input = Returned pvc)
   ↔ (ParseQuantity (env.Storage input)).2 = None)
  ∧ (∀ e, (ParseQuantity (env.Storage input)).2 = Some e
          ↔ env.PersistentVolumeClaim ParseQuantity input
            = Panicked ("cannot parse '" +:+ env.Storage input
                        +:+ "': " +:+ e)).
Proof.
  unfold env.PersistentVolumeClaim, env.MustParse.
  destruct (ParseQuantity (env.Storage input)) as [q [e|]]; cbn.
  - split; [split; [intros [pvc [=]] | intros [=]]|].
    intros e'. split; [by intros [= ->] | intros [= H]].
    change ("" +:+ ?x) with x in H.
    apply append_cancel_l in H. apply (append_cancel_l "': ") in H.
    by rewrite H.
  - split; [split; [done | by eexists]|].
    intros e'. split; intros [=].
Qed.

Lemma PersistentVolumeClaim_returns_or_panics_witness :
  env.PersistentVolumeClaim env.parse_bytes
    {| env.Namespace := "default"; env.Name := "cache";
       env.Storage := "plenty" |}
  = Panicked
      "cannot parse 'plenty': quantities must match the regular expression".
Proof.
  pose (input := {| env.Namespace := "default"; env.Name := "cache";
                    env.Storage := "plenty" |}).
  destruct (PersistentVolumeClaim_returns_or_panics env.parse_bytes input)
    as [_ H].
  apply (H "quantities must match the regular expression"). reflexivity.
Defined.

(** Every claim the constructor returns carries the same two
    annotations, the storage class "cache" and the author "m8s", and no
    other: nothing of the input reaches the annotations. *)
Theorem PersistentVolumeClaim_annotations {Quantity : Type}
    (ParseQuantity : string → Quantity * error)
    (input : env.PersistentVolumeClaimInput)
    (pvc : env.v1_PersistentVolumeClaim) :
  env.PersistentVolumeClaim ParseQuantity input = Returned pvc →
  ∀ key,
    env.Annotations (env.Meta pvc) !! key
    = if decide (key = "volume.beta.kubernetes.io/storage-class")
      then Some "cache"
      else if decide (key = "author") then Some "m8s" else None.
Proof.
  unfold env.PersistentVolumeClaim, env.MustParse.
  destruct (ParseQuantity (env.Storage input)) as [q [e|]]; cbn;
    [intros [=]|]. intros [= <-] key. cbn [env.Meta env.Annotations].
  repeat case_decide; subst.
  - apply lookup_insert_eq.
  - rewrite lookup_insert_ne by done. apply lookup_insert_eq.
  - by rewrite !lookup_insert_ne, lookup_empty.
Qed.

Lemma PersistentVolumeClaim_annotations_witness :
  ∃ pvc,
    env.PersistentVolumeClaim env.parse_bytes
      {| env.Namespace := "default"; env.Name := "cache";
         env.Storage := "100Gi" |} = Returned pvc
    ∧ env.Annotations (env.Meta pvc) !! "author" = Some "m8s"
    ∧ env.Annotations (env.Meta pvc) !! "namespace" = None.
Proof.
  eexists. split; [reflexivity|].
  split.
  - apply (PersistentVolumeClaim_annotations env.parse_bytes
             {| env.Namespace := "default"; env.Name := "cache";
                env.Storage := "100Gi" |} _ eq_refl "author").
  - apply (PersistentVolumeClaim_annotations env.parse_bytes
             {| env.Namespace := "default"; env.Name := "cache";
                env.Storage := "100Gi" |} _ eq_refl "namespace").
Defined.
